(** * Sales dashboard (dashboard_project/app.py): filter-and-aggregate pipeline

    A shallow embedding of the data loader, the filter stage shared by the
    chart and export callbacks, the aggregation performed by [update_charts],
    and the reset / export callbacks, followed by the properties established
    for them.

    Conventions of the embedding:
    - a pandas [datetime64[ns]] value is an integer number of nanoseconds
      since 1970-01-01T00:00:00; a calendar date is a number of days since
      1970-01-01;
    - a cell that pandas would hold as NaN / NaT / None is [None];
    - monetary amounts and quantities are exact integers (minor units), so
      sums are exact; binary floating point rounding and sums that leave
      the range of a machine integer are outside the model;
    - a data frame is its list of column names together with its rows in
      index order. *)

From Stdlib Require Import ZArith List String Ascii Bool Lia.
From Stdlib Require Import QArith.
From Stdlib Require Import Sorting.Sorted Sorting.Permutation.
From Stdlib Require Import Structures.OrderedTypeEx.
Import ListNotations.
Open Scope string_scope.
Open Scope Z_scope.

(* ================================================================== *)
(** * Exceptions and results *)

Inductive Exc : Type :=
| FileNotFoundError
| ValueError
| KeyError (key : string)
| PreventUpdate.

Inductive Result (A : Type) : Type :=
| Ok (a : A)
| Raise (e : Exc).
Arguments Ok {A} a.
Arguments Raise {A} e.

Definition bind {A B : Type} (m : Result A) (f : A -> Result B) : Result B :=
  match m with
  | Ok a => f a
  | Raise e => Raise e
  end.

Notation "x <- m ;; k" := (bind m (fun x => k))
  (at level 61, m at next level, right associativity).

(** What the Dash dispatcher makes of a callback invocation: the returned
    value is written to the outputs, [PreventUpdate] leaves every output
    untouched, any other exception is a callback error. *)
Inductive Outcome (A : Type) : Type :=
| Updated (a : A)
| NoUpdate
| CallbackError (e : Exc).
Arguments Updated {A} a.
Arguments NoUpdate {A}.
Arguments CallbackError {A} e.

Definition dispatch {A : Type} (r : Result A) : Outcome A :=
  match r with
  | Ok a => Updated a
  | Raise PreventUpdate => NoUpdate
  | Raise e => CallbackError e
  end.

(* ================================================================== *)
(** * Timestamps *)

Definition Timestamp := Z.
Definition Date := Z.

Definition NS_PER_SECOND : Z := 1000000000.
Definition NS_PER_HOUR : Z := 3600 * NS_PER_SECOND.
Definition NS_PER_DAY : Z := 24 * NS_PER_HOUR.

(** [pd.Timedelta(days=n)] *)
Definition Timedelta_days (n : Z) : Z := n * NS_PER_DAY.

(** [pd.to_datetime] of the ISO date a date picker delivers: midnight. *)
Definition to_datetime (d : Date) : Timestamp := d * NS_PER_DAY.

(** [Timestamp.date()] *)
Definition date (t : Timestamp) : Date := t / NS_PER_DAY.

(** [Series.dt.hour] *)
Definition hour (t : Timestamp) : Z := (t / NS_PER_HOUR) mod 24.

Definition weekdays : list string :=
  ["Monday"; "Tuesday"; "Wednesday"; "Thursday"; "Friday"; "Saturday"; "Sunday"].

(** [Series.dt.day_name()]; 1970-01-01 was a Thursday. *)
Definition day_name (t : Timestamp) : string :=
  nth (Z.to_nat ((date t + 3) mod 7)) weekdays "".

(** Proleptic Gregorian year and month (1..12) of a day number. *)
Definition civil_year_month (d : Date) : Z * Z :=
  let z := d + 719468 in
  let era := z / 146097 in
  let doe := z - era * 146097 in
  let yoe := (doe - doe / 1460 + doe / 36524 - doe / 146096) / 365 in
  let y := yoe + era * 400 in
  let doy := doe - (365 * yoe + yoe / 4 - yoe / 100) in
  let mp := (5 * doy + 2) / 153 in
  let m := if mp <? 10 then mp + 3 else mp - 9 in
  (if m <=? 2 then y + 1 else y, m).

(** The monthly bin of a timestamp: months elapsed since year 0. *)
Definition month_index (t : Timestamp) : Z :=
  let '(y, m) := civil_year_month (date t) in y * 12 + (m - 1).

(* ================================================================== *)
(** * Rows and frames *)

(** A row as read from the CSV file.  [raw_order_date] is the cell after
    date parsing with [errors="coerce"]: [None] is NaT. *)
Record RawRow : Type := {
  raw_order_id : option string;
  raw_order_date : option Timestamp;
  raw_product_id : option string;
  raw_product_name : option string;
  raw_category : option string;
  raw_country : option string;
  raw_quantity : option Z;
  raw_price : option Z;
  raw_revenue : option Z
}.

Record RawTable : Type := {
  raw_columns : list string;
  raw_rows : list RawRow
}.

(** A row of the loaded frame; [dropna(subset=["order_date"])] leaves no NaT,
    so [order_date] is a plain timestamp. *)
Record Row : Type := {
  order_id : option string;
  order_date : Timestamp;
  product_id : option string;
  product_name : option string;
  category : option string;
  country : option string;
  quantity : option Z;
  price : option Z;
  revenue : option Z;
  order_hour : Z;
  order_weekday : option string
}.

Record Table : Type := {
  columns : list string;
  rows : list Row
}.

(** [name in df.columns] *)
Definition has_column (cols : list string) (name : string) : bool :=
  existsb (String.eqb name) cols.

(** [df[name]]: a missing column is a [KeyError]. *)
Definition getitem (t : Table) (name : string) : Result unit :=
  if has_column (columns t) name then Ok tt else Raise (KeyError name).

(** [df[mask]]: boolean indexing keeps the columns and the row order. *)
Definition select (mask : Row -> bool) (t : Table) : Table :=
  {| columns := columns t; rows := filter mask (rows t) |}.

(** [Series.isin(values)]; NaN is in no list of strings. *)
Definition isin (cell : option string) (values : list string) : bool :=
  match cell with
  | Some s => existsb (String.eqb s) values
  | None => false
  end.

(** [Series.sum()] of the revenue column: NaN cells are skipped. *)
Definition revenue_or_0 (r : Row) : Z :=
  match revenue r with Some v => v | None => 0 end.

Definition sum_revenue (l : list Row) : Z :=
  fold_right (fun r acc => revenue_or_0 r + acc) 0 l.

(** [Series.dropna()] *)
Fixpoint dropna {A : Type} (l : list (option A)) : list A :=
  match l with
  | [] => []
  | Some a :: l' => a :: dropna l'
  | None :: l' => dropna l'
  end.

(** [Series.unique()]: distinct values in order of first appearance. *)
Fixpoint unique {A : Type} (eqb : A -> A -> bool) (l : list A) : list A :=
  match l with
  | [] => []
  | a :: l' => a :: filter (fun b => negb (eqb a b)) (unique eqb l')
  end.

(** Stable insertion sort for a boolean order [leb]: an element is placed
    before the first element it is [leb] to, so equal keys keep their input
    order. *)
Fixpoint insert_sorted {A : Type} (leb : A -> A -> bool) (a : A) (l : list A) : list A :=
  match l with
  | [] => [a]
  | b :: l' => if leb a b then a :: b :: l' else b :: insert_sorted leb a l'
  end.

Fixpoint sorted {A : Type} (leb : A -> A -> bool) (l : list A) : list A :=
  match l with
  | [] => []
  | a :: l' => insert_sorted leb a (sorted leb l')
  end.

(** [Series.nunique()]: number of distinct non-NaN values. *)
Definition nunique (l : list (option string)) : nat :=
  List.length (unique String.eqb (dropna l)).

(** [df.groupby(key)["revenue"].sum().reset_index()]: NaN keys are dropped,
    the groups come out in ascending key order ([sort=True] is the default),
    each with the sum of its revenue cells. *)
Definition key_is (key : Row -> option string) (k : string) (r : Row) : bool :=
  match key r with Some s => String.eqb s k | None => false end.

Definition groupby_sum (key : Row -> option string) (l : list Row) : list (string * Z) :=
  map (fun k => (k, sum_revenue (filter (key_is key k) l)))
      (sorted String.leb (unique String.eqb (dropna (map key l)))).

(** The order in which [sort_values] leaves rows of equal revenue.  The
    program sorts with pandas' default [kind="quicksort"], which is not
    stable, so it does not fix that order: it is a parameter, a rank that
    the sort gives to each row of the frame it is handed, rows of equal
    revenue coming out by ascending rank.  The rank may depend on the whole
    frame, so that no arrangement in descending revenue is excluded. *)
Definition TieOrder : Type := list (string * Z) -> string * Z -> Z.

Definition comes_first (tie : TieOrder) (l : list (string * Z))
    (a b : string * Z) : bool :=
  (snd b <? snd a) || ((snd a =? snd b) && (tie l a <=? tie l b)).

(** [sort_values("revenue", ascending=False)] *)
Definition sort_values_desc (tie : TieOrder) (l : list (string * Z)) :
    list (string * Z) :=
  sorted (comes_first tie l) l.

(** A stable descending sort: rows of equal revenue stay in their input
    order. *)
Definition stable_sort_desc (l : list (string * Z)) : list (string * Z) :=
  rev (sorted (fun a b => snd a <=? snd b) (rev l)).

(** [df.head(n)]: the first [n] rows; for a negative [n], all but the last
    [-n] rows. *)
Definition head {A : Type} (n : Z) (l : list A) : list A :=
  if 0 <=? n then firstn (Z.to_nat n) l
  else firstn (List.length l - Z.to_nat (- n)) l.

(** [Series.min()] / [Series.max()]; [None] is the NaT of an empty series. *)
Definition series_min (l : list Z) : option Z :=
  match l with
  | [] => None
  | a :: l' => Some (fold_left Z.min l' a)
  end.

Definition series_max (l : list Z) : option Z :=
  match l with
  | [] => None
  | a :: l' => Some (fold_left Z.max l' a)
  end.

(** [lo, lo+1, ..., lo+n-1] *)
Fixpoint Zrange (lo : Z) (n : nat) : list Z :=
  match n with
  | O => []
  | S n' => lo :: Zrange (lo + 1) n'
  end.

(** [df.set_index("order_date").resample("M")["revenue"].sum().reset_index()]:
    one bin per calendar month from the month of the earliest row to the
    month of the latest one, months without rows included with sum 0; a bin
    is identified by its [month_index]. *)
Definition resample_M_sum (l : list Row) : list (Z * Z) :=
  let months := map (fun r => month_index (order_date r)) l in
  match series_min months, series_max months with
  | Some lo, Some hi =>
      map (fun m => (m, sum_revenue (filter (fun r => month_index (order_date r) =? m) l)))
          (Zrange lo (Z.to_nat (hi - lo + 1)))
  | _, _ => []
  end.

(** [pd.pivot_table(index="order_hour", columns="order_weekday",
    values="revenue", aggfunc="sum", fill_value=0)]: rows with a NaN weekday
    take no part; both axes come out sorted. *)
Record Pivot : Type := {
  pv_index : list Z;
  pv_columns : list string;
  pv_cell : Z -> string -> Z
}.

Definition has_weekday (r : Row) : bool :=
  match order_weekday r with Some _ => true | None => false end.

Definition pivot_table (l : list Row) : Pivot :=
  {| pv_index := sorted Z.leb (unique Z.eqb (map order_hour (filter has_weekday l)));
     pv_columns := sorted String.leb (unique String.eqb (dropna (map order_weekday l)));
     pv_cell := fun h w =>
       sum_revenue (filter (fun r => (order_hour r =? h) && key_is order_weekday w r) l) |}.

(** [pivot.reindex(columns=cols)] *)
Definition reindex_columns (p : Pivot) (cols : list string) : Pivot :=
  {| pv_index := pv_index p; pv_columns := cols; pv_cell := pv_cell p |}.

(** [pivot.empty]: one of the axes has length 0. *)
Definition pivot_empty (p : Pivot) : bool :=
  match pv_index p, pv_columns p with
  | _ :: _, _ :: _ => false
  | _, _ => true
  end.

Definition pivot_values (p : Pivot) : list (list Z) :=
  map (fun h => map (pv_cell p h) (pv_columns p)) (pv_index p).

(** Cells of a row by column name, for serialisation. *)
Inductive Cell : Type :=
| NaN
| Str (s : string)
| Int (z : Z)
| Datetime (t : Timestamp).

Definition cell_of {A : Type} (f : A -> Cell) (o : option A) : Cell :=
  match o with Some a => f a | None => NaN end.

Definition cell (r : Row) (name : string) : Cell :=
  if String.eqb name "order_id" then cell_of Str (order_id r)
  else if String.eqb name "order_date" then Datetime (order_date r)
  else if String.eqb name "product_id" then cell_of Str (product_id r)
  else if String.eqb name "product_name" then cell_of Str (product_name r)
  else if String.eqb name "category" then cell_of Str (category r)
  else if String.eqb name "country" then cell_of Str (country r)
  else if String.eqb name "quantity" then cell_of Int (quantity r)
  else if String.eqb name "price" then cell_of Int (price r)
  else if String.eqb name "revenue" then cell_of Int (revenue r)
  else if String.eqb name "order_hour" then Int (order_hour r)
  else if String.eqb name "order_weekday" then cell_of Str (order_weekday r)
  else NaN.

(** [df.to_csv(index=...)]: a header line with the column names, then one
    line per row in row order; with [index=True] every line starts with the
    row label. *)
Record Csv : Type := {
  csv_header : list string;
  csv_lines : list (list Cell)
}.

Fixpoint enumerate_from {A : Type} (i : Z) (l : list A) : list (Z * A) :=
  match l with
  | [] => []
  | a :: l' => (i, a) :: enumerate_from (i + 1) l'
  end.

Definition to_csv (index : bool) (t : Table) : Csv :=
  if index then
    {| csv_header := "" :: columns t;
       csv_lines := map (fun ir => Int (fst ir) :: map (cell (snd ir)) (columns t))
                        (enumerate_from 0 (rows t)) |}
  else
    {| csv_header := columns t;
       csv_lines := map (fun r => map (cell r) (columns t)) (rows t) |}.

(* ================================================================== *)
(** * Python values handed over by the widgets *)

(** The value of a multi-select dropdown: [None], a bare string, or a list. *)
Inductive Selection : Type :=
| SelNone
| SelScalar (s : string)
| SelList (l : list string).

(** Truth value of a selection in [if selected:]. *)
Definition truthy (s : Selection) : bool :=
  match s with
  | SelNone => false
  | SelScalar x => negb (String.eqb x "")
  | SelList [] => false
  | SelList (_ :: _) => true
  end.

(** [if not isinstance(sel, list): sel = [sel]] *)
Definition as_list (s : Selection) : list string :=
  match s with
  | SelNone => []
  | SelScalar x => [x]
  | SelList l => l
  end.

(** The value of the numeric input, as it reaches the callback. *)
Inductive PyValue : Type :=
| PyNone
| PyInt (z : Z)
| PyStr (s : string).

Definition py_truthy (v : PyValue) : bool :=
  match v with
  | PyNone => false
  | PyInt z => negb (z =? 0)
  | PyStr s => negb (String.eqb s "")
  end.

(** [str.strip()] on ASCII white space. *)
Definition is_space (c : ascii) : bool :=
  let n := nat_of_ascii c in
  Nat.eqb n 32 || (Nat.leb 9 n && Nat.leb n 13) || (Nat.leb 28 n && Nat.leb n 31).

Fixpoint lstrip (s : string) : string :=
  match s with
  | EmptyString => EmptyString
  | String c s' => if is_space c then lstrip s' else s
  end.

Fixpoint rstrip (s : string) : string :=
  match s with
  | EmptyString => EmptyString
  | String c s' =>
      let t := rstrip s' in
      if is_space c && String.eqb t "" then EmptyString else String c t
  end.

Definition strip (s : string) : string := rstrip (lstrip s).

(** [int(s)] as it acts on ASCII text: optional sign, decimal digits, single
    underscores between digits, the white space of C [isspace] ignored
    around them; [None] is [ValueError]. *)
Definition is_c_space (c : ascii) : bool :=
  let n := nat_of_ascii c in
  Nat.eqb n 32 || (Nat.leb 9 n && Nat.leb n 13).

Fixpoint c_lstrip (s : string) : string :=
  match s with
  | EmptyString => EmptyString
  | String c s' => if is_c_space c then c_lstrip s' else s
  end.

Fixpoint c_rstrip (s : string) : string :=
  match s with
  | EmptyString => EmptyString
  | String c s' =>
      let t := c_rstrip s' in
      if is_c_space c && String.eqb t "" then EmptyString else String c t
  end.

Definition digit_of (c : ascii) : option Z :=
  let n := nat_of_ascii c in
  if Nat.leb 48 n && Nat.leb n 57 then Some (Z.of_nat n - 48) else None.

Fixpoint parse_digits (s : string) (acc : Z) (after_digit : bool) : option Z :=
  match s with
  | EmptyString => if after_digit then Some acc else None
  | String c s' =>
      if Ascii.eqb c "_"
      then (if after_digit then parse_digits s' acc false else None)
      else match digit_of c with
           | Some d => parse_digits s' (10 * acc + d) true
           | None => None
           end
  end.

Definition int_of_string (s : string) : option Z :=
  match c_rstrip (c_lstrip s) with
  | String "-" s' => option_map Z.opp (parse_digits s' 0 false)
  | String "+" s' => parse_digits s' 0 false
  | s' => parse_digits s' 0 false
  end.

(** [int(v)]: [None] stands for the [TypeError] / [ValueError] raised.  What
    [int] makes of a string is Python's business (white space, signs,
    underscores, the decimal digits of every script): it is the parameter
    [int_str]. *)
Definition py_int (int_str : string -> option Z) (v : PyValue) : option Z :=
  match v with
  | PyNone => None
  | PyInt z => Some z
  | PyStr s => int_str s
  end.

(** [not n_clicks] *)
Definition not_clicked (n_clicks : option Z) : bool :=
  match n_clicks with
  | None => true
  | Some k => k =? 0
  end.

(** The attributes of a [dcc.Input(type="number")]. *)
Record NumberInput : Type := {
  input_value : Z;
  input_min : Z;
  input_max : Z;
  input_step : Z
}.

(** What the program leaves to its libraries: the order of equal keys in a
    sort, and the reading of a string as an integer. *)
Record Library : Type := {
  tie_order : TieOrder;
  int_of_str : string -> option Z
}.

(* ================================================================== *)
(** * load_data *)

(** The two places [load_data] looks at; [None] is a path that does not
    exist, [Some f] the parsed content of the file there. *)
Record FileSystem : Type := {
  DATA_PATH : option RawTable;
  SAMPLE_PATH : option RawTable
}.

(** [pd.read_csv(path, parse_dates=["order_date"])]: a header without the
    column named in [parse_dates] is a [ValueError]. *)
Definition read_csv (f : RawTable) : Result RawTable :=
  if has_column (raw_columns f) "order_date" then Ok f else Raise ValueError.

(** [df[name] = ...]: an existing column keeps its place, a new one is
    appended. *)
Definition assign_column (cols : list string) (name : string) : list string :=
  if has_column cols name then cols else cols ++ [name].

(** [df["quantity"] * df["price"]], NaN where either factor is NaN. *)
Definition quantity_times_price (r : RawRow) : option Z :=
  match raw_quantity r, raw_price r with
  | Some q, Some p => Some (q * p)
  | _, _ => None
  end.

Definition set_revenue (r : RawRow) : RawRow :=
  {| raw_order_id := raw_order_id r;
     raw_order_date := raw_order_date r;
     raw_product_id := raw_product_id r;
     raw_product_name := raw_product_name r;
     raw_category := raw_category r;
     raw_country := raw_country r;
     raw_quantity := raw_quantity r;
     raw_price := raw_price r;
     raw_revenue := quantity_times_price r |}.

(** [df["order_date"].dt.hour.fillna(-1).astype(int)] *)
Definition hour_or_sentinel (d : option Timestamp) : Z :=
  match d with
  | Some t => hour t
  | None => -1
  end.

(** A row once the two derived columns are attached, before [dropna]. *)
Record Derived : Type := {
  source_row : RawRow;
  derived_hour : Z;
  derived_weekday : option string
}.

Definition derive (r : RawRow) : Derived :=
  {| source_row := r;
     derived_hour := hour_or_sentinel (raw_order_date r);
     derived_weekday := option_map day_name (raw_order_date r) |}.

(** [df.dropna(subset=["order_date"])] *)
Fixpoint dropna_order_date (l : list Derived) : list Row :=
  match l with
  | [] => []
  | d :: l' =>
      match raw_order_date (source_row d) with
      | Some t =>
          {| order_id := raw_order_id (source_row d);
             order_date := t;
             product_id := raw_product_id (source_row d);
             product_name := raw_product_name (source_row d);
             category := raw_category (source_row d);
             country := raw_country (source_row d);
             quantity := raw_quantity (source_row d);
             price := raw_price (source_row d);
             revenue := raw_revenue (source_row d);
             order_hour := derived_hour d;
             order_weekday := derived_weekday d |} :: dropna_order_date l'
      | None => dropna_order_date l'
      end
  end.

Definition load_data (fs : FileSystem) : Result Table :=
  df <- match DATA_PATH fs with
        | Some f => read_csv f
        | None =>
            match SAMPLE_PATH fs with
            | Some f => read_csv f
            | None => Raise FileNotFoundError
            end
        end ;;
  let cols := map strip (raw_columns df) in
  let derive_revenue :=
    negb (has_column cols "revenue")
    && (has_column cols "quantity" && has_column cols "price") in
  let cols := if derive_revenue then assign_column cols "revenue" else cols in
  let rws := if derive_revenue then map set_revenue (raw_rows df) else raw_rows df in
  let cols := assign_column (assign_column cols "order_hour") "order_weekday" in
  Ok {| columns := cols; rows := dropna_order_date (map derive rws) |}.

(* ================================================================== *)
(** * Module level values *)

Definition available_countries (df : Table) : list string :=
  sorted String.leb (unique String.eqb (dropna (map country (rows df)))).

Definition available_categories (df : Table) : list string :=
  if has_column (columns df) "category"
  then sorted String.leb (unique String.eqb (dropna (map category (rows df))))
  else [].

(** What runs when the module is imported, up to the layout: the load, then
    the two lists above ([df['country']] needs its column). *)
Definition startup (fs : FileSystem) : Result Table :=
  df <- load_data fs ;;
  _ <- getitem df "country" ;;
  Ok df.

(** The values the filter controls are created with. *)
Record FilterState : Type := {
  country_value : Selection;
  category_value : Selection;
  start_date : option Date;
  end_date : option Date
}.

Definition min_order_date (df : Table) : option Date :=
  option_map date (series_min (map order_date (rows df))).

Definition max_order_date (df : Table) : option Date :=
  option_map date (series_max (map order_date (rows df))).

Definition controls (df : Table) : FilterState :=
  {| country_value :=
       if (List.length (available_countries df) <=? 3)%nat
       then SelList (available_countries df)
       else SelList [hd "" (available_countries df)];
     category_value :=
       match available_categories df with
       | [] => SelNone
       | _ :: _ => SelList []
       end;
     start_date := min_order_date df;
     end_date := max_order_date df |}.

Definition preview_rows_input : NumberInput :=
  {| input_value := 10; input_min := 1; input_max := 200; input_step := 1 |}.

(* ================================================================== *)
(** * update_charts *)

(** Lines 193-205: the filter stage.  The dates are taken within the range
    of the timestamps pandas holds. *)
Definition update_charts_filter (df : Table)
    (selected_countries selected_categories : Selection)
    (start_date end_date : option Date) : Result Table :=
  let dff := df in
  dff <- (if truthy selected_countries
          then _ <- getitem dff "country" ;;
               Ok (select (fun r => isin (country r) (as_list selected_countries)) dff)
          else Ok dff) ;;
  dff <- (if truthy selected_categories
          then _ <- getitem dff "category" ;;
               Ok (select (fun r => isin (category r) (as_list selected_categories)) dff)
          else Ok dff) ;;
  dff <- (match start_date with
          | Some s =>
              _ <- getitem dff "order_date" ;;
              Ok (select (fun r => to_datetime s <=? order_date r) dff)
          | None => Ok dff
          end) ;;
  dff <- (match end_date with
          | Some e =>
              _ <- getitem dff "order_date" ;;
              Ok (select (fun r => order_date r <=? to_datetime e + Timedelta_days 1) dff)
          | None => Ok dff
          end) ;;
  Ok dff.

Inductive LineFigure : Type :=
| LineNoData (title : string)
| Line (data : list (Z * Z)) (title : string).

Record Heatmap : Type := {
  heat_z : list (list Z);
  heat_x : list string;
  heat_y : list Z;
  heat_title : string
}.

(** What a summary card shows for a date: [str] of a date, [str] of NaT, or
    the string "-". *)
Inductive SummaryDate : Type :=
| OnDate (d : Date)
| NaT
| Dash.

Definition summary_date (o : option Date) : SummaryDate :=
  match o with
  | Some d => OnDate d
  | None => NaT
  end.

Record Views : Type := {
  fig_top : list (string * Z);
  fig_country : list (string * Z);
  fig_time : LineFigure;
  fig_heat : Heatmap;
  total_revenue : Z;
  total_orders : nat;
  aov : Q;
  unique_products : nat;
  table_columns : list string;
  table_data : list Row;
  total_rows : nat;
  start_dt : SummaryDate;
  end_dt : SummaryDate;
  countries_count : nat
}.

(** Line 208. *)
Definition top_products (tie : TieOrder) (dff : list Row) : list (string * Z) :=
  head 10 (sort_values_desc tie (groupby_sum product_name dff)).

(** Line 214. *)
Definition sales_country (tie : TieOrder) (dff : list Row) : list (string * Z) :=
  sort_values_desc tie (groupby_sum country dff).

(** Lines 255-258. *)
Definition n_preview (int_str : string -> option Z) (preview_rows : PyValue) : Z :=
  if py_truthy preview_rows
  then match py_int int_str preview_rows with
       | Some n => n
       | None => 10
       end
  else 10.

(** Line 240: true division, guarded by the truth value of the count; the
    quotient is kept exact. *)
Definition average_order_value (revenue_total : Z) (orders : nat) : Q :=
  match orders with
  | O => 0%Q
  | S _ => Qmake revenue_total (Pos.of_nat orders)
  end.

(** Lines 207-269: everything computed from the filtered frame. *)
Definition aggregate (L : Library) (dff : Table) (preview_rows : PyValue) :
    Result Views :=
  _ <- getitem dff "product_name" ;;
  _ <- getitem dff "revenue" ;;
  let top := top_products (tie_order L) (rows dff) in
  _ <- getitem dff "country" ;;
  let by_country := sales_country (tie_order L) (rows dff) in
  _ <- getitem dff "order_date" ;;
  let time_series := resample_M_sum (rows dff) in
  let fig_time :=
    match time_series with
    | [] => LineNoData "Revenue Over Time (monthly) — No data for selected filters"
    | _ :: _ => Line time_series "Revenue Over Time (monthly)"
    end in
  _ <- getitem dff "order_hour" ;;
  _ <- getitem dff "order_weekday" ;;
  let pivot := pivot_table (rows dff) in
  let pivot :=
    reindex_columns pivot
      (filter (fun c => existsb (String.eqb c) (pv_columns pivot)) weekdays) in
  let fig_heat :=
    if pivot_empty pivot
    then {| heat_z := [[0]]; heat_x := []; heat_y := [];
            heat_title := "Hourly Heatmap — No data" |}
    else {| heat_z := pivot_values pivot; heat_x := pv_columns pivot;
            heat_y := pv_index pivot;
            heat_title := "Revenue heatmap: Hour vs Weekday" |} in
  let total_revenue := sum_revenue (rows dff) in
  let total_orders :=
    if has_column (columns dff) "order_id"
    then nunique (map order_id (rows dff))
    else List.length (rows dff) in
  let aov := average_order_value total_revenue total_orders in
  let unique_products :=
    if has_column (columns dff) "product_id"
    then nunique (map product_id (rows dff))
    else nunique (map product_name (rows dff)) in
  let preview_df := head (n_preview (int_of_str L) preview_rows) (rows dff) in
  Ok {| fig_top := top;
        fig_country := by_country;
        fig_time := fig_time;
        fig_heat := fig_heat;
        total_revenue := total_revenue;
        total_orders := total_orders;
        aov := aov;
        unique_products := unique_products;
        table_columns := columns dff;
        table_data := preview_df;
        total_rows := List.length (rows dff);
        start_dt :=
          match rows dff with
          | _ :: _ => summary_date (option_map date (series_min (map order_date (rows dff))))
          | [] => Dash
          end;
        end_dt :=
          match rows dff with
          | _ :: _ => summary_date (option_map date (series_max (map order_date (rows dff))))
          | [] => Dash
          end;
        countries_count := nunique (map country (rows dff)) |}.

Definition update_charts (L : Library) (df : Table)
    (selected_countries selected_categories : Selection)
    (start_date end_date : option Date) (preview_rows : PyValue) : Result Views :=
  dff <- update_charts_filter df selected_countries selected_categories
           start_date end_date ;;
  aggregate L dff preview_rows.

(* ================================================================== *)
(** * reset_filters *)

Definition reset_filters (df : Table) (n_clicks : option Z) : Result FilterState :=
  if not_clicked n_clicks then
    Ok {| country_value :=
            if (List.length (available_countries df) <=? 3)%nat
            then SelList (available_countries df)
            else SelList [hd "" (available_countries df)];
          category_value :=
            match available_categories df with
            | [] => SelNone
            | _ :: _ => SelList []
            end;
          start_date := min_order_date df;
          end_date := max_order_date df |}
  else
    Ok {| country_value :=
            if (List.length (available_countries df) <=? 3)%nat
            then SelList (available_countries df)
            else SelList [hd "" (available_countries df)];
          category_value :=
            match available_categories df with
            | [] => SelNone
            | _ :: _ => SelList []
            end;
          start_date := min_order_date df;
          end_date := max_order_date df |}.

(* ================================================================== *)
(** * export_csv *)

Record Download : Type := {
  filename : string;
  content : Csv
}.

(** [dcc.send_data_frame(writer, filename, index=False)] *)
Definition send_data_frame (writer : bool -> Csv) (name : string) (index : bool) : Download :=
  {| filename := name; content := writer index |}.

(** Lines 307-319: the filter stage of the export, under the same reading
    of the dates. *)
Definition export_csv_filter (df : Table)
    (selected_countries selected_categories : Selection)
    (start_date end_date : option Date) : Result Table :=
  let dff := df in
  dff <- (if truthy selected_countries
          then _ <- getitem dff "country" ;;
               Ok (select (fun r => isin (country r) (as_list selected_countries)) dff)
          else Ok dff) ;;
  dff <- (if truthy selected_categories
          then _ <- getitem dff "category" ;;
               Ok (select (fun r => isin (category r) (as_list selected_categories)) dff)
          else Ok dff) ;;
  dff <- (match start_date with
          | Some s =>
              _ <- getitem dff "order_date" ;;
              Ok (select (fun r => to_datetime s <=? order_date r) dff)
          | None => Ok dff
          end) ;;
  dff <- (match end_date with
          | Some e =>
              _ <- getitem dff "order_date" ;;
              Ok (select (fun r => order_date r <=? to_datetime e + Timedelta_days 1) dff)
          | None => Ok dff
          end) ;;
  Ok dff.

Definition export_csv (df : Table) (n_clicks : option Z)
    (selected_countries selected_categories : Selection)
    (start_date end_date : option Date) : Result Download :=
  if not_clicked n_clicks then Raise PreventUpdate
  else
    dff <- export_csv_filter df selected_countries selected_categories
             start_date end_date ;;
    Ok (send_data_frame (fun index => to_csv index dff) "filtered_sales.csv" false).

(* ================================================================== *)
(** * Vocabulary of the statements *)

(** The file [load_data] reads: the cleaned data set if present, else the
    sample. *)
Definition chosen_file (fs : FileSystem) : option RawTable :=
  match DATA_PATH fs with
  | Some f => Some f
  | None => SAMPLE_PATH fs
  end.

(** The columns the aggregation indexes unconditionally. *)
Definition aggregate_columns : list string :=
  ["product_name"; "revenue"; "country"; "order_date"; "order_hour"; "order_weekday"].

(** Descending order of two groups: the second has no larger sum. *)
Definition not_below (a b : string * Z) : Prop := snd b <= snd a.

(** The timestamps pandas holds: int64 nanoseconds, the least value apart
    (it stands for NaT).  A date window is representable when the midnight
    of each date set, and the midnight after the end date, are such
    timestamps; beyond them [pd.to_datetime] or the addition of a day raises
    [OutOfBoundsDatetime], which the filter stage above leaves out. *)
Definition Timestamp_min : Z := - 9223372036854775807.
Definition Timestamp_max : Z := 9223372036854775807.

Definition representable (t : Z) : bool :=
  (Timestamp_min <=? t) && (t <=? Timestamp_max).

Definition window_representable (sd ed : option Date) : bool :=
  match sd with
  | Some s => representable (to_datetime s)
  | None => true
  end
  && match ed with
     | Some e => representable (to_datetime e)
                 && representable (to_datetime e + Timedelta_days 1)
     | None => true
     end.

(** The months of the line figure. *)
Definition line_months (f : LineFigure) : list Z :=
  match f with
  | LineNoData _ => []
  | Line data _ => map fst data
  end.

(** A library for running the definitions: ties by position in the frame,
    [int] on ASCII text. *)
Definition reference_library : Library :=
  {| tie_order := fun _ _ => 0; int_of_str := int_of_string |}.

(** The predicate a row has to satisfy to get through the four filter
    steps. *)
Definition passes (sc sg : Selection) (sd ed : option Date) (r : Row) : bool :=
  (if truthy sc then isin (country r) (as_list sc) else true)
  && ((if truthy sg then isin (category r) (as_list sg) else true)
  && (match sd with Some s => to_datetime s <=? order_date r | None => true end
  && match ed with
     | Some e => order_date r <=? to_datetime e + Timedelta_days 1
     | None => true
     end)).

(** Sorted by [leb], with equal keys in the order [before] of the input. *)
Definition stably_ordered {A : Type} (leb : A -> A -> bool)
    (before : A -> A -> Prop) (a b : A) : Prop :=
  leb a b = true /\ (leb b a = true -> before a b).

(** The top-products view in the words of the specification: the groups in
    the order in which their product name is first met in the subset, sorted
    by descending summed revenue with equal sums left in that order, cut to
    the first 10. *)
Definition groups_first_seen (dff : list Row) : list (string * Z) :=
  map (fun k => (k, sum_revenue (filter (key_is product_name k) dff)))
      (unique String.eqb (dropna (map product_name dff))).

Definition top_products_as_specified (dff : list Row) : list (string * Z) :=
  firstn 10 (stable_sort_desc (groups_first_seen dff)).

(* ================================================================== *)
(** * Sample data *)

Definition sales_columns : list string :=
  ["order_id"; "order_date"; "product_id"; "product_name"; "category";
   "country"; "quantity"; "price"; "revenue"; "order_hour"; "order_weekday"].

(** A complete row sold at timestamp [t]. *)
Definition sale (id name cat ctry : string) (amount : Z) (t : Timestamp) : Row :=
  {| order_id := Some id;
     order_date := t;
     product_id := Some name;
     product_name := Some name;
     category := Some cat;
     country := Some ctry;
     quantity := Some 1;
     price := Some amount;
     revenue := Some amount;
     order_hour := hour t;
     order_weekday := Some (day_name t) |}.

(** 2024-01-05 is day 19727, 2024-01-20 is day 19742, 2024-02-10 is day
    19763. *)
Definition sample_rows : list Row :=
  [ sale "o1" "Robot" "Toys" "US" 10 (to_datetime 19727 + 9 * NS_PER_HOUR);
    sale "o2" "Robot" "Toys" "US" 20 (to_datetime 19763 + 14 * NS_PER_HOUR);
    sale "o3" "Chess" "Games" "FR" 5 (to_datetime 19742) ].

Definition sample_df : Table :=
  {| columns := sales_columns; rows := sample_rows |}.

(** A frame whose only row is stamped at midnight of 2024-01-06. *)
Definition next_midnight_row : Row :=
  sale "o9" "Robot" "Toys" "US" 10 (to_datetime 19728).

Definition next_midnight_df : Table :=
  {| columns := sales_columns; rows := [next_midnight_row] |}.

(** A row of a CSV file without a revenue cell. *)
Definition raw_sale (id name ctry : string) (q p : option Z)
    (d : option Timestamp) : RawRow :=
  {| raw_order_id := Some id;
     raw_order_date := d;
     raw_product_id := None;
     raw_product_name := Some name;
     raw_category := None;
     raw_country := Some ctry;
     raw_quantity := q;
     raw_price := p;
     raw_revenue := None |}.

(** A CSV file with neither [revenue] nor [quantity] and [price]. *)
Definition csv_without_revenue : RawTable :=
  {| raw_columns := ["order_id"; "order_date"; "product_name"; "country"];
     raw_rows := [raw_sale "o1" "Robot" "US" None None (Some (to_datetime 19727))] |}.

Definition fs_without_revenue : FileSystem :=
  {| DATA_PATH := Some csv_without_revenue; SAMPLE_PATH := None |}.

(** A sample file with [quantity] and [price] (header cells padded with
    blanks) and one row whose date did not parse. *)
Definition csv_quantity_price : RawTable :=
  {| raw_columns := ["order_id"; "order_date"; "product_name"; "country";
                     " quantity"; "price "];
     raw_rows :=
       [raw_sale "o1" "Robot" "US" (Some 2) (Some 15)
                 (Some (to_datetime 19727 + 9 * NS_PER_HOUR));
        raw_sale "o2" "Chess" "FR" (Some 1) (Some 5) None] |}.

Definition fs_quantity_price : FileSystem :=
  {| DATA_PATH := None; SAMPLE_PATH := Some csv_quantity_price |}.

Definition fs_empty : FileSystem :=
  {| DATA_PATH := None; SAMPLE_PATH := None |}.

(** Two products with the same revenue, the later name sold first. *)
Definition tie_rows : list Row :=
  [ sale "o1" "Blocks" "Toys" "US" 5 (to_datetime 19727);
    sale "o2" "Abacus" "Toys" "US" 5 (to_datetime 19728) ].

(** A table with five countries, none of them first in row order. *)
Definition five_country_df : Table :=
  {| columns := sales_columns;
     rows :=
       [ sale "o1" "Robot" "Toys" "US" 10 (to_datetime 19727 + 9 * NS_PER_HOUR);
         sale "o2" "Robot" "Toys" "FR" 20 (to_datetime 19763);
         sale "o3" "Chess" "Games" "DE" 5 (to_datetime 19742);
         sale "o4" "Chess" "Games" "BR" 5 (to_datetime 19700 + 23 * NS_PER_HOUR);
         sale "o5" "Chess" "Games" "JP" 5 (to_datetime 19750);
         sale "o6" "Chess" "Games" "US" 7 (to_datetime 19751) ] |}.

(** The rows of a file whose date parsed. *)
Definition has_date (r : RawRow) : bool :=
  match raw_order_date r with Some _ => true | None => false end.

Definition parsed_rows (l : list RawRow) : list RawRow := filter has_date l.

(** A filter step is active when it indexes its column. *)
Definition window_set (sd ed : option Date) : bool :=
  match sd, ed with
  | None, None => false
  | _, _ => true
  end.

Definition filter_columns_present (df : Table) (sc sg : Selection)
    (sd ed : option Date) : bool :=
  (negb (truthy sc) || has_column (columns df) "country")
  && (negb (truthy sg) || has_column (columns df) "category")
  && (negb (window_set sd ed) || has_column (columns df) "order_date").

(** The sample rows in a frame without the optional columns. *)
Definition bare (r : Row) : Row :=
  {| order_id := None;
     order_date := order_date r;
     product_id := None;
     product_name := product_name r;
     category := None;
     country := country r;
     quantity := None;
     price := None;
     revenue := revenue r;
     order_hour := order_hour r;
     order_weekday := order_weekday r |}.

Definition bare_df : Table :=
  {| columns := aggregate_columns; rows := map bare sample_rows |}.

(** A weekday name carried by some row of the frame. *)
Definition weekday_present (l : list Row) (w : string) : bool :=
  existsb (key_is order_weekday w) l.

(** A loaded row carries the cells of the file row it comes from. *)
Definition same_cells (raw : RawRow) (r : Row) : Prop :=
  order_id r = raw_order_id raw
  /\ Some (order_date r) = raw_order_date raw
  /\ product_id r = raw_product_id raw
  /\ product_name r = raw_product_name raw
  /\ category r = raw_category raw
  /\ country r = raw_country raw
  /\ quantity r = raw_quantity raw
  /\ price r = raw_price raw.

(** A CSV file without a country column. *)
Definition csv_without_country : RawTable :=
  {| raw_columns := ["order_id"; "order_date"; "product_name"; "revenue"];
     raw_rows := [raw_sale "o1" "Robot" "US" None None (Some (to_datetime 19727))] |}.

Definition fs_without_country : FileSystem :=
  {| DATA_PATH := Some csv_without_country; SAMPLE_PATH := Some csv_quantity_price |}.

(** The rank that makes the sort return a given arrangement: the place of a
    row in that arrangement. *)
Definition same_group (a b : string * Z) : bool :=
  String.eqb (fst a) (fst b) && (snd a =? snd b).

Fixpoint position (x : string * Z) (l : list (string * Z)) : Z :=
  match l with
  | [] => 0
  | y :: t => if same_group x y then 0 else 1 + position x t
  end.

Definition rank_in (target : list (string * Z)) : TieOrder :=
  fun _ x => position x target.

(** Strictly before, for the rank of an arrangement: a larger sum, or the
    same sum and an earlier place. *)
Definition strictly_first (target : list (string * Z)) (a b : string * Z) : Prop :=
  snd b < snd a \/ (snd a = snd b /\ position a target < position b target).

(* ================================================================== *)
(** * Properties of the filter stage *)

Lemma filter_filter (A : Type) (p q : A -> bool) (l : list A) :
  filter q (filter p l) = filter (fun a => p a && q a) l.
Proof.
  induction l as [|a l IH]; simpl; [reflexivity|].
  destruct (p a); simpl; rewrite IH; reflexivity.
Qed.

Lemma filter_true (A : Type) (l : list A) : filter (fun _ => true) l = l.
Proof. induction l as [|a l IH]; simpl; congruence. Qed.

Lemma select_select (p q : Row -> bool) (t : Table) :
  select q (select p t) = select (fun r => p r && q r) t.
Proof. unfold select; simpl. now rewrite filter_filter. Qed.

Lemma select_true (t : Table) : select (fun _ => true) t = t.
Proof. unfold select. rewrite filter_true. now destruct t. Qed.

(** A run of the filter stage either raises the [KeyError] of the first
    missing column it needs, or returns the frame restricted to the rows
    that pass. *)
Lemma update_charts_filter_eq df sc sg sd ed :
  update_charts_filter df sc sg sd ed =
  (_ <- (if truthy sc then getitem df "country" else Ok tt) ;;
   _ <- (if truthy sg then getitem df "category" else Ok tt) ;;
   _ <- (match sd, ed with
         | None, None => Ok tt
         | _, _ => getitem df "order_date"
         end) ;;
   Ok (select (passes sc sg sd ed) df)).
Proof.
  unfold update_charts_filter, getitem.
  destruct (has_column (columns df) "country") eqn:Hc,
           (has_column (columns df) "category") eqn:Hg,
           (has_column (columns df) "order_date") eqn:Hd,
           (truthy sc) eqn:Hsc, (truthy sg) eqn:Hsg, sd, ed;
    repeat (cbn [bind select columns rows]; rewrite ?Hc, ?Hg, ?Hd);
    try reflexivity;
    unfold select, passes; rewrite Hsc, Hsg; cbn [columns rows];
    rewrite <- (select_true df) at 1; unfold select; do 2 f_equal;
    cbn [columns rows];
    rewrite ?filter_filter; apply filter_ext; intro r;
    cbn [andb]; rewrite ?andb_true_r, ?andb_assoc; reflexivity.
Qed.

(** A successful run keeps the columns and keeps exactly the rows that
    pass, in their order. *)
Lemma update_charts_filter_ok df sc sg sd ed dff :
  update_charts_filter df sc sg sd ed = Ok dff ->
  dff = select (passes sc sg sd ed) df.
Proof.
  rewrite update_charts_filter_eq. unfold bind.
  destruct (if truthy sc then _ else _); [|discriminate].
  destruct (if truthy sg then _ else _); [|discriminate].
  destruct (match sd with Some _ => _ | None => _ end); [|discriminate].
  now intros [= <-].
Qed.

(** The two copies of the filter stage are the same function. *)
Lemma export_filter_is_charts_filter df sc sg sd ed :
  export_csv_filter df sc sg sd ed = update_charts_filter df sc sg sd ed.
Proof. reflexivity. Qed.

(** With only [end_date] set, a row is kept exactly when its timestamp is at
    most midnight of the day after [end_date]. *)
Lemma end_date_step (df dff : Table) (e : Date) (r : Row) :
  update_charts_filter df SelNone SelNone None (Some e) = Ok dff ->
  (In r (rows dff) <->
   In r (rows df) /\ order_date r <= to_datetime e + Timedelta_days 1).
Proof.
  intro H. apply update_charts_filter_ok in H as ->. simpl.
  rewrite filter_In. unfold passes; simpl. rewrite Z.leb_le. reflexivity.
Qed.

(** Every timestamp that falls on the day [e] is within the upper bound. *)
Lemma end_day_within_bound (e : Date) (t : Timestamp) :
  date t = e -> t < to_datetime e + Timedelta_days 1.
Proof.
  unfold date, to_datetime, Timedelta_days. intros <-.
  assert (Hd : 0 < NS_PER_DAY) by (unfold NS_PER_DAY, NS_PER_HOUR, NS_PER_SECOND; lia).
  generalize (Z.mul_succ_div_gt t NS_PER_DAY Hd). lia.
Qed.

(** Hence every row dated on the end day gets through the end-date step. *)
Lemma end_day_rows_kept (df dff : Table) (e : Date) (r : Row) :
  update_charts_filter df SelNone SelNone None (Some e) = Ok dff ->
  In r (rows df) -> date (order_date r) = e -> In r (rows dff).
Proof.
  intros H Hin Hd. apply (end_date_step df dff e r H). split; [assumption|].
  apply end_day_within_bound in Hd. lia.
Qed.

(** C1 (behaviour of the code at the boundary): with end_date 2024-01-05 and
    no other constraint, both the chart filter and the export filter keep a
    row stamped 2024-01-06T00:00:00, although that timestamp is not strictly
    less than end_date plus one day and falls on the following calendar
    day. *)
Theorem C1_next_midnight_is_kept :
  update_charts_filter next_midnight_df SelNone SelNone None (Some 19727)
    = Ok next_midnight_df
  /\ export_csv_filter next_midnight_df SelNone SelNone None (Some 19727)
    = Ok next_midnight_df
  /\ ~ (order_date next_midnight_row < to_datetime 19727 + Timedelta_days 1)
  /\ date (order_date next_midnight_row) = 19728.
Proof.
  repeat split; try reflexivity.
  vm_compute. intro H; discriminate H.
Qed.

(** C8: filtering by countries and then filtering that result by categories
    (with or without a date window) is filtering once by the combined
    specification, errors included; a selection that is absent or empty
    restricts nothing. *)
Theorem C8_conjunctive_composition (df : Table) (A B : Selection)
    (sd ed : option Date) :
  (dff <- update_charts_filter df A SelNone None None ;;
   update_charts_filter dff SelNone B sd ed)
  = update_charts_filter df A B sd ed
  /\ update_charts_filter df SelNone SelNone None None = Ok df
  /\ update_charts_filter df (SelList []) (SelList []) None None = Ok df
  /\ update_charts_filter df A (SelList []) None None
     = update_charts_filter df A SelNone None None
  /\ update_charts_filter df SelNone B None None
     = update_charts_filter df (SelList []) B None None.
Proof.
  repeat split; try reflexivity.
  unfold update_charts_filter, getitem, select.
  destruct (truthy A), (truthy B), sd, ed; simpl;
    repeat (destruct (has_column (columns df) _); simpl; try reflexivity);
    destruct df; reflexivity.
Qed.

(* ================================================================== *)
(** * Export *)

(** C4: once the export button has been clicked, the export filters with the
    very function the charts use; where the chart filter fails the export
    fails alike, and where it yields a subset the exported file has one line
    per row of that subset, in the subset's order (itself the base order),
    its header is the base table's column list, and every line holds exactly
    the cells of those columns, without a leading index cell. *)
Theorem C4_export_applies_chart_filter (df : Table) (n : option Z)
    (sc sg : Selection) (sd ed : option Date) :
  not_clicked n = false ->
  export_csv_filter df sc sg sd ed = update_charts_filter df sc sg sd ed
  /\ (forall e, update_charts_filter df sc sg sd ed = Raise e ->
                export_csv df n sc sg sd ed = Raise e)
  /\ (forall dff, update_charts_filter df sc sg sd ed = Ok dff ->
        exists d,
          export_csv df n sc sg sd ed = Ok d
          /\ List.length (csv_lines (content d)) = List.length (rows dff)
          /\ csv_header (content d) = columns df
          /\ csv_lines (content d) = map (fun r => map (cell r) (columns df)) (rows dff)
          /\ rows dff = filter (passes sc sg sd ed) (rows df)).
Proof.
  intro Hn. unfold export_csv. rewrite Hn, export_filter_is_charts_filter.
  split; [reflexivity|]. split.
  - intros e ->. reflexivity.
  - intros dff H. rewrite H. cbn [bind].
    apply update_charts_filter_ok in H. subst dff.
    eexists. split; [reflexivity|].
    cbn. rewrite length_map. repeat split; reflexivity.
Qed.

Lemma C4_export_applies_chart_filter_witness :
  not_clicked (Some 1) = false
  /\ exists d,
       export_csv sample_df (Some 1) (SelList ["US"]) SelNone None None = Ok d
       /\ List.length (csv_lines (content d)) = 2%nat
       /\ csv_header (content d) = sales_columns.
Proof.
  split; [reflexivity|].
  destruct (C4_export_applies_chart_filter sample_df (Some 1) (SelList ["US"])
              SelNone None None eq_refl) as (_ & _ & H).
  destruct (H _ eq_refl) as (d & Hd & Hlen & Hhdr & _).
  exists d. repeat split; assumption.
Defined.

(* ================================================================== *)
(** * Triggers that have not fired *)

(** C7 as stated fails for the reset trigger: invoked with a trigger that
    never fired, [reset_filters] hands the dispatcher a value to write, the
    same one a real click produces. *)
Lemma C7_reset_never_clicked_returns_defaults :
  dispatch (reset_filters sample_df None) <> NoUpdate
  /\ dispatch (reset_filters sample_df None) = Updated (controls sample_df)
  /\ reset_filters sample_df None = reset_filters sample_df (Some 1).
Proof.
  repeat split; try reflexivity. discriminate.
Qed.

(** C7 (amended): with a trigger that never fired, the export raises the
    no-update signal, which the dispatcher tells apart from both a value and
    an error; the reset raises nothing and returns the values the controls
    were created with, which are also what any later click returns. *)
Theorem C7_never_fired_triggers (df : Table) (n : option Z)
    (sc sg : Selection) (sd ed : option Date) :
  not_clicked n = true ->
  dispatch (export_csv df n sc sg sd ed) = NoUpdate
  /\ dispatch (reset_filters df n) = Updated (controls df)
  /\ (forall m, reset_filters df m = Ok (controls df)).
Proof.
  intro Hn. unfold export_csv, reset_filters. rewrite Hn.
  repeat split. intro m. destruct (not_clicked m); reflexivity.
Qed.

Lemma C7_never_fired_triggers_witness :
  not_clicked None = true
  /\ dispatch (export_csv sample_df None (SelList ["US"]) SelNone None None) = NoUpdate
  /\ dispatch (reset_filters sample_df None) = Updated (controls sample_df).
Proof.
  split; [reflexivity|].
  destruct (C7_never_fired_triggers sample_df None (SelList ["US"]) SelNone
              None None eq_refl) as (H1 & H2 & _).
  split; assumption.
Defined.

(* ================================================================== *)
(** * The loader *)

Lemma has_column_app cols name m :
  has_column (cols ++ [name]) m = has_column cols m || String.eqb m name.
Proof.
  unfold has_column. rewrite existsb_app. simpl. now rewrite orb_false_r.
Qed.

Lemma has_column_assign cols name m :
  has_column (assign_column cols name) m = has_column cols m || String.eqb m name.
Proof.
  unfold assign_column. destruct (has_column cols name) eqn:H.
  - destruct (String.eqb m name) eqn:E; [|now rewrite orb_false_r].
    apply String.eqb_eq in E. subst. now rewrite H.
  - apply has_column_app.
Qed.

Lemma load_data_eq fs :
  load_data fs =
  match chosen_file fs with
  | None => Raise FileNotFoundError
  | Some f =>
      if has_column (raw_columns f) "order_date" then
        let cols := map strip (raw_columns f) in
        let derive_revenue :=
          negb (has_column cols "revenue")
          && (has_column cols "quantity" && has_column cols "price") in
        Ok {| columns :=
                assign_column
                  (assign_column
                     (if derive_revenue then assign_column cols "revenue" else cols)
                     "order_hour") "order_weekday";
              rows :=
                dropna_order_date
                  (map derive (if derive_revenue then map set_revenue (raw_rows f)
                               else raw_rows f)) |}
      else Raise ValueError
  end.
Proof.
  unfold load_data, chosen_file, read_csv.
  destruct (DATA_PATH fs) as [f|]; [|destruct (SAMPLE_PATH fs) as [f|]];
    try reflexivity; destruct (has_column (raw_columns f) "order_date"); reflexivity.
Qed.

Lemma derived_revenue_rows (l : list RawRow) :
  Forall (fun r => revenue r =
                   match quantity r, price r with
                   | Some q, Some p => Some (q * p)
                   | _, _ => None
                   end)
         (dropna_order_date (map derive (map set_revenue l))).
Proof.
  induction l as [|a l IH]; simpl; [constructor|].
  destruct (raw_order_date a); [constructor|]; auto.
Qed.

(** C9 as stated fails: a readable file that has neither a revenue column
    nor the quantity and price columns loads without any error, startup goes
    through, and the table has no revenue column. *)
Lemma C9_load_without_revenue_succeeds :
  exists t,
    load_data fs_without_revenue = Ok t
    /\ startup fs_without_revenue = Ok t
    /\ has_column (columns t) "revenue" = false
    /\ has_column (map strip (raw_columns csv_without_revenue)) "quantity" = false
    /\ has_column (map strip (raw_columns csv_without_revenue)) "price" = false.
Proof.
  eexists. repeat split; reflexivity.
Qed.

(** C9 (amended): loading raises [FileNotFoundError] when neither file
    exists and [ValueError] when the file read has no order_date column; in
    every other case it succeeds, and the table returned has a revenue
    column exactly when the file has one or has both quantity and price, the
    revenue being quantity times price in each row when it is derived. *)
Theorem C9_load_data_outcome (fs : FileSystem) :
  (chosen_file fs = None -> load_data fs = Raise FileNotFoundError)
  /\ (forall f, chosen_file fs = Some f ->
        has_column (raw_columns f) "order_date" = false ->
        load_data fs = Raise ValueError)
  /\ (forall f, chosen_file fs = Some f ->
        has_column (raw_columns f) "order_date" = true ->
        exists t,
          load_data fs = Ok t
          /\ has_column (columns t) "revenue"
             = has_column (map strip (raw_columns f)) "revenue"
               || (has_column (map strip (raw_columns f)) "quantity"
                   && has_column (map strip (raw_columns f)) "price")
          /\ (has_column (map strip (raw_columns f)) "revenue" = false ->
              has_column (map strip (raw_columns f)) "quantity" = true ->
              has_column (map strip (raw_columns f)) "price" = true ->
              Forall (fun r => revenue r =
                        match quantity r, price r with
                        | Some q, Some p => Some (q * p)
                        | _, _ => None
                        end) (rows t))).
Proof.
  rewrite load_data_eq. repeat split.
  - intros ->. reflexivity.
  - intros f -> ->. reflexivity.
  - intros f -> ->. eexists. split; [reflexivity|]. cbn [columns rows]. split.
    + rewrite !has_column_assign. cbn [String.eqb Ascii.eqb Bool.eqb].
      rewrite !orb_false_r.
      destruct (has_column (map strip (raw_columns f)) "revenue") eqn:Hr;
        destruct (has_column _ "quantity" && has_column _ "price");
        cbn [negb andb orb]; cbv iota; rewrite ?has_column_assign, ?Hr;
        reflexivity.
    + intros -> -> ->. cbn [negb andb]. apply derived_revenue_rows.
Qed.

Lemma C9_load_data_outcome_witness :
  load_data fs_empty = Raise FileNotFoundError
  /\ exists t,
       load_data fs_quantity_price = Ok t
       /\ has_column (columns t) "revenue" = true
       /\ Forall (fun r => revenue r =
                   match quantity r, price r with
                   | Some q, Some p => Some (q * p)
                   | _, _ => None
                   end) (rows t).
Proof.
  destruct (C9_load_data_outcome fs_empty) as (H1 & _).
  split; [exact (H1 eq_refl)|].
  destruct (C9_load_data_outcome fs_quantity_price) as (_ & _ & H3).
  destruct (H3 csv_quantity_price eq_refl eq_refl) as (t & Ht & Hc & Hr).
  exists t. split; [exact Ht|]. split; [exact Hc|].
  exact (Hr eq_refl eq_refl eq_refl).
Defined.

Lemma hour_range (t : Timestamp) : 0 <= hour t <= 23.
Proof.
  unfold hour. generalize (Z.mod_pos_bound (t / NS_PER_HOUR) 24). lia.
Qed.

Lemma day_name_is_weekday (t : Timestamp) : In (day_name t) weekdays.
Proof.
  unfold day_name.
  generalize (Z.mod_pos_bound (date t + 3) 7 eq_refl).
  generalize ((date t + 3) mod 7). intros k Hk.
  assert (E : k = 0 \/ k = 1 \/ k = 2 \/ k = 3 \/ k = 4 \/ k = 5 \/ k = 6) by lia.
  destruct E as [-> | [-> | [-> | [-> | [-> | [-> | ->]]]]]]; simpl; tauto.
Qed.

Lemma dropna_order_date_derived (P : Row -> Prop) (l : list RawRow) :
  (forall r, order_hour r = hour (order_date r) ->
             order_weekday r = Some (day_name (order_date r)) -> P r) ->
  Forall P (dropna_order_date (map derive l)).
Proof.
  intro HP. induction l as [|a l IH]; simpl; [constructor|].
  destruct (raw_order_date a) as [t|]; [|exact IH].
  constructor; [|exact IH]. apply HP; reflexivity.
Qed.

Lemma dropna_order_date_length (l : list RawRow) :
  List.length (dropna_order_date (map derive l))
  = List.length (dropna (map raw_order_date l)).
Proof.
  induction l as [|a l IH]; simpl; [reflexivity|].
  destruct (raw_order_date a); simpl; congruence.
Qed.

Lemma set_revenue_dates (l : list RawRow) :
  map raw_order_date (map set_revenue l) = map raw_order_date l.
Proof. rewrite map_map. reflexivity. Qed.

(** The sentinel is what a row without a parsed date carries before the
    drop. *)
Lemma derive_unparsed (r : RawRow) :
  raw_order_date r = None ->
  derived_hour (derive r) = -1 /\ derived_weekday (derive r) = None.
Proof. unfold derive. simpl. intros ->. split; reflexivity. Qed.

(** C10: in every row of the table the loader returns, order_hour is the
    hour of the row's order_date and lies between 0 and 23, so it is never
    the sentinel -1, and order_weekday is the weekday name of order_date;
    the rows returned are as many as the rows of the file whose date
    parsed. *)
Theorem C10_loaded_rows_hour_weekday (fs : FileSystem) (t : Table) :
  load_data fs = Ok t ->
  Forall (fun r =>
            order_hour r = hour (order_date r)
            /\ 0 <= order_hour r <= 23
            /\ order_hour r <> -1
            /\ order_weekday r = Some (day_name (order_date r))
            /\ In (day_name (order_date r)) weekdays) (rows t)
  /\ (forall f, chosen_file fs = Some f ->
        List.length (rows t) = List.length (dropna (map raw_order_date (raw_rows f)))).
Proof.
  rewrite load_data_eq.
  destruct (chosen_file fs) as [f|]; [|discriminate].
  destruct (has_column (raw_columns f) "order_date"); [|discriminate].
  cbv zeta. intros [= <-]. cbn [rows]. split.
  - apply dropna_order_date_derived. intros r Hh Hw.
    generalize (hour_range (order_date r)) (day_name_is_weekday (order_date r)).
    rewrite Hh. intuition lia.
  - intros f' [= <-]. rewrite dropna_order_date_length.
    destruct (negb _ && _); [rewrite set_revenue_dates|]; reflexivity.
Qed.

Lemma C10_loaded_rows_hour_weekday_witness :
  exists t,
    load_data fs_quantity_price = Ok t
    /\ Forall (fun r =>
            order_hour r = hour (order_date r)
            /\ 0 <= order_hour r <= 23
            /\ order_hour r <> -1
            /\ order_weekday r = Some (day_name (order_date r))
            /\ In (day_name (order_date r)) weekdays) (rows t)
    /\ List.length (rows t) = 1%nat.
Proof.
  eexists. split; [reflexivity|].
  destruct (C10_loaded_rows_hour_weekday fs_quantity_price _ eq_refl) as (H1 & H2).
  split; [exact H1|]. exact (H2 _ eq_refl).
Defined.

(* ================================================================== *)
(** * Aggregation *)

Lemma head_nil (A : Type) (n : Z) : head n (@nil A) = [].
Proof. unfold head. destruct (0 <=? n); apply firstn_nil. Qed.

Lemma forallb_aggregate_columns (cols : list string) :
  forallb (has_column cols) aggregate_columns = true ->
  has_column cols "product_name" = true
  /\ has_column cols "revenue" = true
  /\ has_column cols "country" = true
  /\ has_column cols "order_date" = true
  /\ has_column cols "order_hour" = true
  /\ has_column cols "order_weekday" = true.
Proof.
  unfold aggregate_columns. cbn [forallb].
  rewrite !andb_true_iff. tauto.
Qed.

(** With its columns in place the aggregation raises nothing. *)
Lemma aggregate_total (L : Library) (dff : Table) (pv : PyValue) :
  forallb (has_column (columns dff)) aggregate_columns = true ->
  exists v, aggregate L dff pv = Ok v.
Proof.
  intro H. apply forallb_aggregate_columns in H as (H1 & H2 & H3 & H4 & H5 & H6).
  unfold aggregate, getitem. rewrite H1, H2, H3, H4, H5, H6. cbn [bind].
  eexists. reflexivity.
Qed.

(** C2: when the filter leaves no row, [update_charts] returns normally and
    the views are: total revenue 0, no orders, no products, an average order
    value of 0, an empty product ranking, an empty country list, the "no
    data" line figure, the 1x1 zero heat map with its "no data" title, and
    the "-" marker for both summary dates. *)
Theorem C2_empty_subset (L : Library) (df dff : Table) (sc sg : Selection)
    (sd ed : option Date) (pv : PyValue) :
  forallb (has_column (columns df)) aggregate_columns = true ->
  update_charts_filter df sc sg sd ed = Ok dff ->
  rows dff = [] ->
  exists v,
    update_charts L df sc sg sd ed pv = Ok v
    /\ total_revenue v = 0
    /\ total_orders v = 0%nat
    /\ unique_products v = 0%nat
    /\ aov v = 0%Q
    /\ fig_top v = []
    /\ fig_country v = []
    /\ fig_time v = LineNoData "Revenue Over Time (monthly) — No data for selected filters"
    /\ heat_z (fig_heat v) = [[0]]
    /\ heat_title (fig_heat v) = "Hourly Heatmap — No data"
    /\ start_dt v = Dash
    /\ end_dt v = Dash
    /\ table_data v = []
    /\ total_rows v = 0%nat
    /\ countries_count v = 0%nat.
Proof.
  intros Hcols Hf Hrows. unfold update_charts. rewrite Hf. cbn [bind].
  apply update_charts_filter_ok in Hf. subst dff. revert Hrows.
  unfold select. cbn [rows]. intro Hrows.
  apply forallb_aggregate_columns in Hcols as (H1 & H2 & H3 & H4 & H5 & H6).
  unfold aggregate, getitem. cbn [columns rows].
  rewrite H1, H2, H3, H4, H5, H6, Hrows. cbn [bind].
  eexists. split; [reflexivity|]. cbn.
  rewrite head_nil.
  destruct (has_column (columns df) "order_id"),
           (has_column (columns df) "product_id"); repeat split; reflexivity.
Qed.

Lemma C2_empty_subset_witness :
  exists v,
    update_charts reference_library sample_df (SelList ["DE"]) SelNone None None (PyInt 10) = Ok v
    /\ total_revenue v = 0
    /\ total_orders v = 0%nat
    /\ unique_products v = 0%nat
    /\ aov v = 0%Q
    /\ fig_top v = []
    /\ fig_country v = []
    /\ fig_time v = LineNoData "Revenue Over Time (monthly) — No data for selected filters"
    /\ heat_z (fig_heat v) = [[0]]
    /\ heat_title (fig_heat v) = "Hourly Heatmap — No data"
    /\ start_dt v = Dash
    /\ end_dt v = Dash
    /\ table_data v = []
    /\ total_rows v = 0%nat
    /\ countries_count v = 0%nat.
Proof.
  exact (C2_empty_subset reference_library sample_df
           {| columns := sales_columns; rows := [] |}
           (SelList ["DE"]) SelNone None None (PyInt 10)
           eq_refl eq_refl eq_refl).
Defined.

(* ================================================================== *)
(** * Row preview *)

(** C6 as stated fails: the callback checks no range.  A value of 5000 is
    taken as the preview length although it is not within 1 to 200, the
    string read as -3 gives the length -3, and with the length -1 the
    preview is not a run of N first rows but the subset without its last
    row. *)
Lemma C6_no_range_check :
  n_preview int_of_string (PyInt 5000) = 5000
  /\ ~ (1 <= n_preview int_of_string (PyInt 5000) <= 200)
  /\ n_preview int_of_string (PyStr "-3") = -3
  /\ head (n_preview int_of_string (PyInt (-1))) sample_rows = firstn 2 sample_rows.
Proof.
  repeat split; try reflexivity. cbn. lia.
Qed.

(** C6 (amended): the preview length is the integer read from the input
    when the value is truthy and reads as one, and 10, the value the input
    control starts with, when the value is missing, zero, empty or does not
    read as an integer.  The callback applies no range check: any other
    integer N is used as it is.  The preview has the subset's columns and
    is the first N rows of the subset, in order, for N at least 0, and the
    subset without its last -N rows for a negative N. *)
Theorem C6_preview_rows (L : Library) (dff : Table) (pv : PyValue) (v : Views) :
  aggregate L dff pv = Ok v ->
  (py_truthy pv = false \/ py_int (int_of_str L) pv = None ->
   n_preview (int_of_str L) pv = 10)
  /\ (forall n, py_truthy pv = true -> py_int (int_of_str L) pv = Some n ->
                n_preview (int_of_str L) pv = n)
  /\ (forall n, n <> 0 -> n_preview (int_of_str L) (PyInt n) = n)
  /\ input_value preview_rows_input = n_preview (int_of_str L) PyNone
  /\ table_columns v = columns dff
  /\ (0 <= n_preview (int_of_str L) pv ->
      table_data v = firstn (Z.to_nat (n_preview (int_of_str L) pv)) (rows dff))
  /\ (n_preview (int_of_str L) pv < 0 ->
      table_data v
      = firstn (List.length (rows dff) - Z.to_nat (- n_preview (int_of_str L) pv))
               (rows dff)).
Proof.
  intro H.
  assert (Hv : table_columns v = columns dff
               /\ table_data v = head (n_preview (int_of_str L) pv) (rows dff)).
  { revert H. unfold aggregate, getitem.
    repeat (destruct (has_column (columns dff) _); cbn [bind]; [|discriminate]).
    intros [= <-]. split; reflexivity. }
  destruct Hv as [Hc Hd]. split; [|split; [|split; [|split; [|split; [|split]]]]].
  - unfold n_preview. intros [-> | ->]; [reflexivity|].
    destruct (py_truthy pv); reflexivity.
  - unfold n_preview. intros n -> ->. reflexivity.
  - intros n Hn. unfold n_preview. cbn [py_truthy py_int].
    apply Z.eqb_neq in Hn. rewrite Hn. reflexivity.
  - reflexivity.
  - exact Hc.
  - intro Hn. rewrite Hd. unfold head. apply Z.leb_le in Hn. now rewrite Hn.
  - intro Hn. rewrite Hd. unfold head. apply Z.leb_gt in Hn. now rewrite Hn.
Qed.

Lemma C6_preview_rows_witness :
  exists v,
    aggregate reference_library sample_df (PyInt 2) = Ok v
    /\ table_data v = firstn 2 sample_rows
    /\ table_columns v = sales_columns.
Proof.
  eexists. split; [reflexivity|].
  destruct (C6_preview_rows reference_library sample_df (PyInt 2) _ eq_refl)
    as (_ & _ & _ & _ & Hc & Hd & _).
  split; [apply Hd; discriminate | exact Hc].
Defined.

(* ================================================================== *)
(** * Sorting, uniqueness, extrema *)

Section StableSort.

Context {A : Type}.
Variable leb : A -> A -> bool.
Hypothesis leb_total : forall a b, leb a b = true \/ leb b a = true.
Hypothesis leb_trans : forall a b c, leb a b = true -> leb b c = true -> leb a c = true.

(** [before] records the order of the input list. *)
Variable before : A -> A -> Prop.

Lemma insert_sorted_perm (a : A) (l : list A) :
  Permutation (a :: l) (insert_sorted leb a l).
Proof.
  induction l as [|b l IH]; simpl; [reflexivity|].
  destruct (leb a b); [reflexivity|].
  rewrite perm_swap. now constructor.
Qed.

Lemma sorted_perm (l : list A) : Permutation l (sorted leb l).
Proof.
  induction l as [|a l IH]; simpl; [constructor|].
  rewrite <- insert_sorted_perm. now constructor.
Qed.

Lemma insert_sorted_stable (a : A) (l : list A) :
  StronglySorted (stably_ordered leb before) l ->
  Forall (before a) l ->
  StronglySorted (stably_ordered leb before) (insert_sorted leb a l).
Proof.
  induction l as [|b l IH]; intros Hs Hb; simpl.
  - repeat constructor.
  - inversion Hs as [|? ? Hs' Hbl]; subst.
    inversion Hb as [|? ? Hab Hal]; subst.
    destruct (leb a b) eqn:E.
    + constructor; [assumption|]. constructor.
      * split; auto.
      * rewrite Forall_forall in *. intros z Hz.
        destruct (Hbl z Hz) as [Hbz _]. split; eauto.
    + constructor; [auto|].
      rewrite <- insert_sorted_perm. constructor; [|assumption].
      split.
      * destruct (leb_total a b); congruence.
      * congruence.
Qed.

Lemma sorted_stable (l : list A) :
  StronglySorted before l -> StronglySorted (stably_ordered leb before) (sorted leb l).
Proof.
  induction l as [|a l IH]; intro Hs; simpl; [constructor|].
  inversion Hs; subst. apply insert_sorted_stable; [auto|].
  now rewrite <- sorted_perm.
Qed.

End StableSort.

Lemma StronglySorted_impl (A : Type) (R S : A -> A -> Prop) (l : list A) :
  (forall a b, R a b -> S a b) -> StronglySorted R l -> StronglySorted S l.
Proof.
  intros HRS. induction 1 as [|a l Hs IH Hf]; constructor; [assumption|].
  revert Hf. apply Forall_impl. auto.
Qed.

Lemma StronglySorted_app (A : Type) (R : A -> A -> Prop) (l1 l2 : list A) :
  StronglySorted R l1 -> StronglySorted R l2 ->
  (forall x y, In x l1 -> In y l2 -> R x y) ->
  StronglySorted R (l1 ++ l2).
Proof.
  induction l1 as [|a l1 IH]; intros H1 H2 H12; simpl; [assumption|].
  inversion H1; subst. constructor.
  - apply IH; auto. intros; apply H12; simpl; auto.
  - apply Forall_app. split; [assumption|].
    apply Forall_forall. intros y Hy. apply H12; simpl; auto.
Qed.

Lemma StronglySorted_rev (A : Type) (R : A -> A -> Prop) (l : list A) :
  StronglySorted R l -> StronglySorted (fun a b => R b a) (rev l).
Proof.
  induction 1 as [|a l Hs IH Hf]; simpl; [constructor|].
  apply StronglySorted_app; [assumption|repeat constructor|].
  intros x y Hx [<-|[]]. rewrite Forall_forall in Hf.
  apply Hf. now apply in_rev.
Qed.

Lemma StronglySorted_firstn (A : Type) (R : A -> A -> Prop) (n : nat) (l : list A) :
  StronglySorted R l -> StronglySorted R (firstn n l).
Proof.
  intro H. revert n. induction H as [|a l Hs IH Hf]; intros [|n]; simpl;
    try constructor; auto.
  rewrite Forall_forall in *. intros x Hx. apply Hf.
  rewrite <- (firstn_skipn n l). apply in_or_app. now left.
Qed.

Lemma StronglySorted_map (A B : Type) (R : B -> B -> Prop) (f : A -> B) (l : list A) :
  StronglySorted (fun a b => R (f a) (f b)) l -> StronglySorted R (map f l).
Proof.
  induction 1 as [|a l Hs IH Hf]; simpl; constructor; [assumption|].
  apply Forall_map. assumption.
Qed.

Lemma NoDup_StronglySorted_neq (A : Type) (l : list A) :
  NoDup l -> StronglySorted (fun a b => a <> b) l.
Proof.
  induction 1 as [|a l Hn Hd IH]; constructor; [assumption|].
  apply Forall_forall. intros x Hx ->. contradiction.
Qed.

Section Unique.

Context {A : Type}.
Variable eqb : A -> A -> bool.
Hypothesis eqb_spec : forall a b, eqb a b = true <-> a = b.

Lemma unique_In (x : A) (l : list A) : In x (unique eqb l) <-> In x l.
Proof.
  induction l as [|a l IH]; simpl; [tauto|].
  rewrite filter_In, IH, negb_true_iff.
  destruct (eqb a x) eqn:E.
  - apply eqb_spec in E. intuition congruence.
  - assert (a <> x) by (intro Heq; apply eqb_spec in Heq; congruence).
    intuition congruence.
Qed.

Lemma unique_NoDup (l : list A) : NoDup (unique eqb l).
Proof.
  induction l as [|a l IH]; simpl; constructor.
  - rewrite filter_In, negb_true_iff. intros [_ E].
    assert (eqb a a = true) by now apply eqb_spec. congruence.
  - now apply NoDup_filter.
Qed.

End Unique.

Lemma dropna_In (A : Type) (x : A) (l : list (option A)) :
  In x (dropna l) <-> In (Some x) l.
Proof.
  induction l as [|[a|] l IH]; simpl; [tauto| |].
  - rewrite IH. intuition congruence.
  - rewrite IH. intuition congruence.
Qed.

(** The order of strings. *)
Lemma string_leb_iff (a b : string) :
  String.leb a b = true <-> a = b \/ String_as_OT.lt a b.
Proof.
  unfold String.leb.
  destruct (String.compare a b) eqn:E.
  - apply String_as_OT.cmp_eq in E. tauto.
  - apply String_as_OT.cmp_lt in E. tauto.
  - split; [discriminate|]. intros [->|H].
    + assert (E' : String_as_OT.cmp b b = Eq) by now apply String_as_OT.cmp_eq.
      unfold String_as_OT.cmp in E'. congruence.
    + apply String_as_OT.cmp_lt in H. unfold String_as_OT.cmp in H. congruence.
Qed.

Lemma string_leb_trans (a b c : string) :
  String.leb a b = true -> String.leb b c = true -> String.leb a c = true.
Proof.
  rewrite !string_leb_iff. intros [->|H1] [->|H2]; auto.
  right. eapply String_as_OT.lt_trans; eauto.
Qed.

(** Sorting a duplicate-free list of strings gives a strictly ascending
    list with the same members. *)
Lemma sorted_strings (l : list string) :
  NoDup l ->
  StronglySorted String_as_OT.lt (sorted String.leb l)
  /\ forall x, In x (sorted String.leb l) <-> In x l.
Proof.
  intro Hn. split.
  - apply StronglySorted_impl with (R := stably_ordered String.leb (fun a b => a <> b)).
    + intros a b [H1 H2]. apply string_leb_iff in H1 as [->|H1]; [|assumption].
      exfalso. apply H2; [|reflexivity]. apply string_leb_iff. now left.
    + apply sorted_stable; [apply String.leb_total | apply string_leb_trans |].
      now apply NoDup_StronglySorted_neq.
  - intro x. split; apply Permutation_in;
      [symmetry|]; apply sorted_perm.
Qed.

Lemma sorted_unique_strings (l : list (option string)) :
  StronglySorted String_as_OT.lt (sorted String.leb (unique String.eqb (dropna l)))
  /\ forall x, In x (sorted String.leb (unique String.eqb (dropna l))) <-> In (Some x) l.
Proof.
  destruct (sorted_strings (unique String.eqb (dropna l))) as [Hs Hin].
  - apply unique_NoDup, String.eqb_eq.
  - split; [assumption|]. intro x.
    rewrite Hin, unique_In, dropna_In; [reflexivity | apply String.eqb_eq].
Qed.

(** Extrema. *)
Lemma fold_min_spec (l : list Z) (a : Z) :
  In (fold_left Z.min l a) (a :: l)
  /\ Forall (fun x => fold_left Z.min l a <= x) (a :: l).
Proof.
  revert a. induction l as [|b l IH]; intro a; simpl.
  - split; [auto|]. repeat constructor. lia.
  - destruct (IH (Z.min a b)) as [Hin Hall]. split.
    + destruct Hin as [E|Hin]; [|auto].
      rewrite <- E. destruct (Z.min_spec a b) as [[_ ->]|[_ ->]]; auto.
    + inversion Hall as [|? ? H1 H2]; subst.
      repeat constructor; try assumption; lia.
Qed.

Lemma fold_max_spec (l : list Z) (a : Z) :
  In (fold_left Z.max l a) (a :: l)
  /\ Forall (fun x => x <= fold_left Z.max l a) (a :: l).
Proof.
  revert a. induction l as [|b l IH]; intro a; simpl.
  - split; [auto|]. repeat constructor. lia.
  - destruct (IH (Z.max a b)) as [Hin Hall]. split.
    + destruct Hin as [E|Hin]; [|auto].
      rewrite <- E. destruct (Z.max_spec a b) as [[_ ->]|[_ ->]]; auto.
    + inversion Hall as [|? ? H1 H2]; subst.
      repeat constructor; try assumption; lia.
Qed.

Lemma series_min_spec (l : list Z) :
  match series_min l with
  | None => l = []
  | Some m => In m l /\ Forall (fun x => m <= x) l
  end.
Proof. destruct l as [|a l]; simpl; [reflexivity | apply fold_min_spec]. Qed.

Lemma series_max_spec (l : list Z) :
  match series_max l with
  | None => l = []
  | Some m => In m l /\ Forall (fun x => x <= m) l
  end.
Proof. destruct l as [|a l]; simpl; [reflexivity | apply fold_max_spec]. Qed.

(* ================================================================== *)
(** * Reset *)

Lemma available_countries_spec (df : Table) :
  StronglySorted String_as_OT.lt (available_countries df)
  /\ forall c, In c (available_countries df) <->
               exists r, In r (rows df) /\ country r = Some c.
Proof.
  unfold available_countries.
  destruct (sorted_unique_strings (map country (rows df))) as [Hs Hin].
  split; [assumption|]. intro c. rewrite Hin, in_map_iff.
  split; intros (r & H1 & H2); exists r; auto.
Qed.

Lemma date_range_spec (df : Table) :
  match rows df with
  | [] => min_order_date df = None /\ max_order_date df = None
  | _ :: _ =>
      exists lo hi,
        min_order_date df = Some (date lo)
        /\ max_order_date df = Some (date hi)
        /\ In lo (map order_date (rows df))
        /\ In hi (map order_date (rows df))
        /\ Forall (fun r => lo <= order_date r <= hi) (rows df)
  end.
Proof.
  unfold min_order_date, max_order_date.
  generalize (series_min_spec (map order_date (rows df)))
             (series_max_spec (map order_date (rows df))).
  destruct (rows df) as [|r l] eqn:E; [split; reflexivity|].
  destruct (series_min _) as [lo|]; [|discriminate].
  destruct (series_max _) as [hi|]; [|discriminate].
  intros [Hlo Hmin] [Hhi Hmax]. exists lo, hi. repeat split; auto.
  rewrite Forall_map in Hmin, Hmax. rewrite Forall_forall in *.
  intros x Hx. split; auto.
Qed.

(** C5: whatever the click count, the reset returns: every distinct country
    of the base table, in ascending order, when there are at most three, and
    otherwise the single first one in that order; a category selection
    without any entry; and as date range the calendar dates of the earliest
    and of the latest order_date of the base table. *)
Theorem C5_reset_defaults (df : Table) (n : option Z) :
  exists st,
    reset_filters df n = Ok st
    /\ StronglySorted String_as_OT.lt (available_countries df)
    /\ (forall c, In c (available_countries df) <->
                  exists r, In r (rows df) /\ country r = Some c)
    /\ ((List.length (available_countries df) <= 3)%nat ->
        country_value st = SelList (available_countries df))
    /\ ((3 < List.length (available_countries df))%nat ->
        exists c0 rest,
          available_countries df = c0 :: rest
          /\ country_value st = SelList [c0])
    /\ as_list (category_value st) = []
    /\ truthy (category_value st) = false
    /\ match rows df with
       | [] => start_date st = None /\ end_date st = None
       | _ :: _ =>
           exists lo hi,
             start_date st = Some (date lo)
             /\ end_date st = Some (date hi)
             /\ In lo (map order_date (rows df))
             /\ In hi (map order_date (rows df))
             /\ Forall (fun r => lo <= order_date r <= hi) (rows df)
       end.
Proof.
  exists (controls df). split.
  { unfold reset_filters. destruct (not_clicked n); reflexivity. }
  destruct (available_countries_spec df) as [Hs Hin].
  split; [assumption|]. split; [assumption|].
  unfold controls. cbn [country_value category_value start_date end_date].
  split; [|split; [|split; [|split]]].
  - intro H. apply Nat.leb_le in H. now rewrite H.
  - intro H. apply Nat.leb_gt in H. rewrite H.
    destruct (available_countries df) as [|c0 rest]; [inversion H|].
    exists c0, rest. split; reflexivity.
  - destruct (available_categories df); reflexivity.
  - destruct (available_categories df); reflexivity.
  - apply date_range_spec.
Qed.

Lemma C5_reset_defaults_witness :
  (exists st,
     reset_filters sample_df (Some 1) = Ok st
     /\ country_value st = SelList ["FR"; "US"])
  /\ (exists st,
        reset_filters five_country_df (Some 1) = Ok st
        /\ country_value st = SelList ["BR"]).
Proof.
  split.
  - destruct (C5_reset_defaults sample_df (Some 1))
      as (st & Hst & _ & _ & Hle & _).
    exists st. split; [exact Hst|].
    exact (Hle (le_S _ _ (le_n 2))).
  - destruct (C5_reset_defaults five_country_df (Some 1))
      as (st & Hst & _ & _ & _ & Hgt & _).
    exists st. split; [exact Hst|].
    destruct (Hgt (le_S _ _ (le_n 4))) as (c0 & rest & Hac & Hv).
    injection Hac as <- _. exact Hv.
Defined.

(* ================================================================== *)
(** * Top products *)

Lemma groupby_sum_sorted (key : Row -> option string) (l : list Row) :
  StronglySorted (fun a b => String_as_OT.lt (fst a) (fst b)) (groupby_sum key l).
Proof.
  unfold groupby_sum. apply StronglySorted_map. cbn [fst].
  apply sorted_unique_strings.
Qed.

Lemma groupby_sum_In (key : Row -> option string) (l : list Row) (k : string) (v : Z) :
  In (k, v) (groupby_sum key l) <->
  (exists r, In r l /\ key r = Some k)
  /\ v = sum_revenue (filter (key_is key k) l).
Proof.
  unfold groupby_sum. rewrite in_map_iff. split.
  - intros (k' & [= <- <-] & Hk).
    apply sorted_unique_strings in Hk. apply in_map_iff in Hk as (r & H1 & H2).
    split; [exists r; auto | reflexivity].
  - intros [(r & H1 & H2) ->]. exists k. split; [reflexivity|].
    apply sorted_unique_strings. apply in_map_iff. exists r; auto.
Qed.

Lemma comes_first_total (tie : TieOrder) (l : list (string * Z)) (a b : string * Z) :
  comes_first tie l a b = true \/ comes_first tie l b a = true.
Proof.
  unfold comes_first.
  rewrite !orb_true_iff, !andb_true_iff, !Z.ltb_lt, !Z.eqb_eq, !Z.leb_le. lia.
Qed.

Lemma comes_first_trans (tie : TieOrder) (l : list (string * Z)) (a b c : string * Z) :
  comes_first tie l a b = true -> comes_first tie l b c = true ->
  comes_first tie l a c = true.
Proof.
  unfold comes_first.
  rewrite !orb_true_iff, !andb_true_iff, !Z.ltb_lt, !Z.eqb_eq, !Z.leb_le. lia.
Qed.

Lemma StronglySorted_True (A : Type) (l : list A) :
  StronglySorted (fun _ _ => True) l.
Proof.
  induction l; constructor; [assumption|]. apply Forall_forall. auto.
Qed.

Lemma sort_values_desc_perm (tie : TieOrder) (l : list (string * Z)) :
  Permutation l (sort_values_desc tie l).
Proof. apply sorted_perm. Qed.

(** Whatever the order of equal sums, the outcome is in descending order of
    sum. *)
Lemma sort_values_desc_descending (tie : TieOrder) (l : list (string * Z)) :
  StronglySorted not_below (sort_values_desc tie l).
Proof.
  unfold sort_values_desc.
  apply StronglySorted_impl
    with (R := stably_ordered (comes_first tie l) (fun _ _ => True)).
  - intros a b [H _]. unfold not_below. revert H. unfold comes_first.
    rewrite orb_true_iff, andb_true_iff, Z.ltb_lt, Z.eqb_eq. lia.
  - apply sorted_stable.
    + apply comes_first_total.
    + apply comes_first_trans.
    + apply StronglySorted_True.
Qed.

Section SortedUnique.

Context {A : Type}.
Variable lt : A -> A -> Prop.
Hypothesis lt_irrefl : forall a, ~ lt a a.
Hypothesis lt_trans : forall a b c, lt a b -> lt b c -> lt a c.

(** A strictly ascending list is determined by its members. *)
Lemma strictly_sorted_unique (l1 l2 : list A) :
  StronglySorted lt l1 -> StronglySorted lt l2 ->
  (forall x, In x l1 <-> In x l2) -> l1 = l2.
Proof.
  intro H1. revert l2. induction H1 as [|a l1 Hs1 IH Hf1]; intros l2 H2 Hin.
  - destruct l2 as [|b l2]; [reflexivity|].
    exfalso. apply (Hin b). now left.
  - destruct H2 as [|b l2 Hs2 Hf2].
    { exfalso. apply (Hin a). now left. }
    rewrite Forall_forall in Hf1, Hf2.
    assert (Hab : a = b).
    { destruct (proj1 (Hin a) (or_introl eq_refl)) as [E|Ha]; [now symmetry|].
      destruct (proj2 (Hin b) (or_introl eq_refl)) as [E|Hb]; [assumption|].
      exfalso. apply (lt_irrefl a). eauto. }
    subst b. f_equal. apply IH; [assumption|].
    intro x. split; intro Hx.
    + destruct (proj1 (Hin x) (or_intror Hx)) as [E|Hx']; [|assumption].
      subst x. exfalso. apply (lt_irrefl a). auto.
    + destruct (proj2 (Hin x) (or_intror Hx)) as [E|Hx']; [|assumption].
      subst x. exfalso. apply (lt_irrefl a). auto.
Qed.

End SortedUnique.

Lemma same_group_eq (a b : string * Z) : same_group a b = true <-> a = b.
Proof.
  unfold same_group. rewrite andb_true_iff, String.eqb_eq, Z.eqb_eq.
  destruct a, b; cbn. split; [intros [-> ->]; reflexivity | intros [= -> ->]; auto].
Qed.

Lemma position_nonneg (x : string * Z) (l : list (string * Z)) : 0 <= position x l.
Proof.
  induction l as [|y t IH]; cbn [position]; [lia|].
  destruct (same_group x y); lia.
Qed.

Lemma position_inj (a b : string * Z) (l : list (string * Z)) :
  In a l -> position a l = position b l -> a = b.
Proof.
  induction l as [|y t IH]; cbn [position In]; [contradiction|]. intros Ha E.
  destruct (same_group a y) eqn:Ea, (same_group b y) eqn:Eb.
  - apply same_group_eq in Ea, Eb. congruence.
  - generalize (position_nonneg b t). lia.
  - generalize (position_nonneg a t). lia.
  - destruct Ha as [<-|Ha].
    + assert (same_group y y = true) by now apply same_group_eq. congruence.
    + apply IH; [assumption|lia].
Qed.

Lemma StronglySorted_impl_in (A : Type) (R S : A -> A -> Prop) (l : list A) :
  (forall a b, In a l -> In b l -> R a b -> S a b) ->
  StronglySorted R l -> StronglySorted S l.
Proof.
  intros HRS Hs. induction Hs as [|a l Hs IH Hf]; constructor.
  - apply IH. intros x y Hx Hy. apply HRS; now right.
  - rewrite Forall_forall in *. intros x Hx.
    apply HRS; [now left | now right | auto].
Qed.

Lemma StronglySorted_and (A : Type) (R S : A -> A -> Prop) (l : list A) :
  StronglySorted R l -> StronglySorted S l ->
  StronglySorted (fun a b => R a b /\ S a b) l.
Proof.
  induction 1 as [|a l Hs IH Hf]; intro H2; constructor; inversion H2; subst.
  - auto.
  - rewrite Forall_forall in *. auto.
Qed.

Lemma position_ascending (l : list (string * Z)) :
  NoDup l ->
  StronglySorted (fun a b => position a l < position b l) l.
Proof.
  induction 1 as [|y t Hy Hnd IH]; constructor.
  - apply StronglySorted_impl_in
      with (R := fun a b => position a t < position b t); [|assumption].
    intros a b Ha Hb Hlt. cbn [position].
    assert (Na : same_group a y = false).
    { apply not_true_is_false. intro E. apply same_group_eq in E. now subst. }
    assert (Nb : same_group b y = false).
    { apply not_true_is_false. intro E. apply same_group_eq in E. now subst. }
    rewrite Na, Nb. lia.
  - apply Forall_forall. intros b Hb. cbn [position].
    assert (Ey : same_group y y = true) by now apply same_group_eq.
    assert (Nb : same_group b y = false).
    { apply not_true_is_false. intro E. apply same_group_eq in E. now subst. }
    rewrite Ey, Nb. generalize (position_nonneg b t). lia.
Qed.

(** No arrangement is excluded: whatever arrangement in descending revenue
    the sort returns for a frame without repeated rows, as a grouped frame
    is, there is a rank for which the model returns that arrangement. *)
Lemma sort_values_desc_any_arrangement (l target : list (string * Z)) :
  NoDup l -> Permutation l target -> StronglySorted not_below target ->
  sort_values_desc (rank_in target) l = target.
Proof.
  intros Hnd Hp Hs.
  assert (Hnt : NoDup target) by (eapply Permutation_NoDup; eassumption).
  apply (strictly_sorted_unique (strictly_first target)).
  - intros a [H|[_ H]]; lia.
  - intros a b c. unfold strictly_first. lia.
  - unfold sort_values_desc.
    apply StronglySorted_impl_in
      with (R := stably_ordered (comes_first (rank_in target) l) (fun a b => a <> b)).
    + intros a b Ha Hb [H1 H2]. unfold strictly_first.
      assert (Hat : In a target).
      { eapply Permutation_in; [exact Hp|].
        eapply Permutation_in; [symmetry; apply sorted_perm|exact Ha]. }
      revert H1 H2. unfold comes_first, rank_in.
      rewrite !orb_true_iff, !andb_true_iff, !Z.ltb_lt, !Z.eqb_eq, !Z.leb_le.
      intros H1 H2.
      destruct (Z_lt_le_dec (snd b) (snd a)) as [Hlt|Hle]; [now left|].
      right. destruct H1 as [H1|[E H1]]; [lia|]. split; [assumption|].
      destruct (Z.eq_dec (position a target) (position b target)) as [Ep|Np]; [|lia].
      exfalso. apply H2; [right; split; lia|].
      now apply (position_inj a b target).
    + apply sorted_stable.
      * apply comes_first_total.
      * apply comes_first_trans.
      * now apply NoDup_StronglySorted_neq.
  - apply StronglySorted_impl
      with (R := fun a b => not_below a b /\ position a target < position b target).
    + intros a b [H1 H2]. unfold strictly_first, not_below in *. lia.
    + apply StronglySorted_and; [assumption | now apply position_ascending].
  - intro x. split; intro Hx.
    + eapply Permutation_in; [exact Hp|].
      eapply Permutation_in; [symmetry; apply sort_values_desc_perm|exact Hx].
    + eapply Permutation_in; [apply sort_values_desc_perm|].
      eapply Permutation_in; [symmetry; exact Hp|exact Hx].
Qed.

(** C3 as stated fails on ties.  The grouping emits the groups in ascending
    order of name, so two subsets holding the same rows in opposite order
    reach the sort as the same frame and give the same view, whatever the
    sort does with equal sums; the order of first appearance differs
    between them, so the view is the one the claim describes for at most
    one of the two. *)
Lemma C3_tie_not_in_first_seen_order :
  tie_rows <> []
  /\ rev tie_rows <> []
  /\ (forall tie, top_products tie (rev tie_rows) = top_products tie tie_rows)
  /\ top_products_as_specified tie_rows = [("Blocks", 5); ("Abacus", 5)]
  /\ top_products_as_specified (rev tie_rows) = [("Abacus", 5); ("Blocks", 5)]
  /\ ~ (exists tie,
          top_products tie tie_rows = top_products_as_specified tie_rows
          /\ top_products tie (rev tie_rows)
             = top_products_as_specified (rev tie_rows)).
Proof.
  assert (Hsame : forall tie,
            top_products tie (rev tie_rows) = top_products tie tie_rows)
    by (intro tie; reflexivity).
  repeat split; try reflexivity; try discriminate; try exact Hsame.
  intros (tie & H1 & H2). rewrite Hsame, H1 in H2. discriminate H2.
Qed.

(** C3 (amended): the top-products view is the first 10 entries of an
    arrangement of the groups, one per product name occurring in the
    subset, each with the sum of the revenue of the rows of that name, in
    descending order of sum.  The groups reach the sort in ascending order
    of name, not in order of first appearance, and the order of groups of
    equal sum is whatever the sort makes of it: the statement holds for
    every such order. *)
Theorem C3_top_products_ranking (tie : TieOrder) (dff : list Row) :
  exists ranking,
    top_products tie dff = firstn 10 ranking
    /\ StronglySorted not_below ranking
    /\ StronglySorted not_below (top_products tie dff)
    /\ Permutation (groupby_sum product_name dff) ranking
    /\ StronglySorted (fun a b => String_as_OT.lt (fst a) (fst b))
                      (groupby_sum product_name dff)
    /\ (forall name total,
          In (name, total) ranking <->
          (exists r, In r dff /\ product_name r = Some name)
          /\ total = sum_revenue (filter (key_is product_name name) dff)).
Proof.
  exists (sort_values_desc tie (groupby_sum product_name dff)).
  assert (Hs : StronglySorted not_below
                 (sort_values_desc tie (groupby_sum product_name dff)))
    by apply sort_values_desc_descending.
  split; [reflexivity|]. split; [assumption|]. split; [|split; [|split]].
  - change (top_products tie dff)
      with (firstn 10 (sort_values_desc tie (groupby_sum product_name dff))).
    now apply StronglySorted_firstn.
  - apply sort_values_desc_perm.
  - apply groupby_sum_sorted.
  - intros name total. rewrite <- groupby_sum_In.
    split; apply Permutation_in;
      [symmetry|]; apply sort_values_desc_perm.
Qed.

(* ================================================================== *)
(** * Monthly series *)

Lemma Zrange_nonempty (lo : Z) (n : nat) : (0 < n)%nat -> Zrange lo n <> [].
Proof. destruct n; [lia|discriminate]. Qed.

(** The "no data" line figure is produced for the empty subset only. *)
Lemma resample_M_sum_nonempty (l : list Row) : l <> [] -> resample_M_sum l <> [].
Proof.
  intro Hl. unfold resample_M_sum.
  generalize (series_min_spec (map (fun r => month_index (order_date r)) l))
             (series_max_spec (map (fun r => month_index (order_date r)) l)).
  destruct (series_min _) as [lo|].
  - destruct (series_max _) as [hi|].
    + intros [Hlo Hmin] [Hhi Hmax] H. apply map_eq_nil in H. revert H.
      apply Zrange_nonempty.
      rewrite Forall_forall in Hmin. specialize (Hmin hi Hhi). lia.
    + intros _ H. destruct l; [congruence|discriminate].
  - intros H. destruct l; [congruence|discriminate].
Qed.

(* ================================================================== *)
(** * Further properties of the filter stage *)

Lemma getitem_select (p : Row -> bool) (df : Table) (name : string) :
  getitem (select p df) name = getitem df name.
Proof. reflexivity. Qed.

(** Filtering a filtered frame again by the same specification changes
    nothing, and fails exactly as the first pass does. *)
Theorem filter_idempotent (df : Table) (sc sg : Selection) (sd ed : option Date) :
  (dff <- update_charts_filter df sc sg sd ed ;;
   update_charts_filter dff sc sg sd ed)
  = update_charts_filter df sc sg sd ed.
Proof.
  rewrite (update_charts_filter_eq df).
  destruct (if truthy sc then getitem df "country" else Ok tt) eqn:E1;
    [|reflexivity].
  destruct (if truthy sg then getitem df "category" else Ok tt) eqn:E2;
    [|reflexivity].
  destruct (match sd with Some _ => _ | None => _ end) eqn:E3; [|reflexivity].
  cbn [bind]. rewrite update_charts_filter_eq, !getitem_select, E1, E2, E3.
  cbn [bind]. rewrite select_select. unfold select. do 2 f_equal.
  apply filter_ext. intro r. apply andb_diag.
Qed.

(** A bare, non-empty string handed over as selection filters like the list
    holding just that string, for the countries as for the categories, in
    the charts as in the export. *)
Theorem scalar_selection_is_singleton (df : Table) (s : string)
    (other : Selection) (sd ed : option Date) :
  s <> "" ->
  update_charts_filter df (SelScalar s) other sd ed
    = update_charts_filter df (SelList [s]) other sd ed
  /\ update_charts_filter df other (SelScalar s) sd ed
    = update_charts_filter df other (SelList [s]) sd ed
  /\ export_csv_filter df (SelScalar s) other sd ed
    = export_csv_filter df (SelList [s]) other sd ed
  /\ export_csv_filter df other (SelScalar s) sd ed
    = export_csv_filter df other (SelList [s]) sd ed.
Proof.
  intro Hs.
  assert (Ht : truthy (SelScalar s) = true).
  { cbn. apply negb_true_iff. apply String.eqb_neq. exact Hs. }
  unfold export_csv_filter, update_charts_filter.
  rewrite Ht. repeat split; reflexivity.
Qed.

Lemma scalar_selection_is_singleton_witness :
  "US" <> ""
  /\ update_charts_filter sample_df (SelScalar "US") SelNone None None
     = update_charts_filter sample_df (SelList ["US"]) SelNone None None.
Proof.
  assert (H : "US" <> "") by discriminate.
  split; [exact H|].
  exact (proj1 (scalar_selection_is_singleton sample_df "US" SelNone None None H)).
Defined.

Lemma NS_PER_DAY_pos : 0 < NS_PER_DAY.
Proof. reflexivity. Qed.

Lemma to_datetime_le_iff (s : Date) (t : Timestamp) :
  to_datetime s <= t <-> s <= date t.
Proof.
  unfold to_datetime, date. generalize NS_PER_DAY_pos. intro Hd. split; intro H.
  - apply Z.div_le_lower_bound; lia.
  - generalize (Z.mul_div_le t NS_PER_DAY Hd). nia.
Qed.

Lemma le_next_midnight_iff (e : Date) (t : Timestamp) :
  t <= to_datetime e + Timedelta_days 1 <->
  date t <= e \/ t = to_datetime (e + 1).
Proof.
  unfold to_datetime, Timedelta_days, date.
  generalize NS_PER_DAY_pos (Z.mul_div_le t NS_PER_DAY NS_PER_DAY_pos)
             (Z.mul_succ_div_gt t NS_PER_DAY NS_PER_DAY_pos).
  intros Hd H1 H2. split.
  - intro H. destruct (Z_le_gt_dec (t / NS_PER_DAY) e) as [Hle|Hgt]; [now left|].
    right. nia.
  - intros [H| ->]; nia.
Qed.

(** With both dates set and nothing else, the rows kept are those whose
    calendar date lies from start_date to end_date, both included, plus
    those stamped exactly at midnight after end_date. *)
Theorem date_window_in_calendar_days (df dff : Table) (s e : Date) (r : Row) :
  update_charts_filter df SelNone SelNone (Some s) (Some e) = Ok dff ->
  (In r (rows dff) <->
   In r (rows df)
   /\ s <= date (order_date r)
   /\ (date (order_date r) <= e \/ order_date r = to_datetime (e + 1))).
Proof.
  intro H. apply update_charts_filter_ok in H as ->. cbn [select rows].
  rewrite filter_In. unfold passes. cbn [truthy andb].
  rewrite andb_true_iff, !Z.leb_le, to_datetime_le_iff, le_next_midnight_iff.
  reflexivity.
Qed.

Lemma date_window_in_calendar_days_witness :
  exists dff,
    update_charts_filter sample_df SelNone SelNone (Some 19727) (Some 19742) = Ok dff
    /\ forall r,
         In r (rows dff) <->
         In r (rows sample_df)
         /\ 19727 <= date (order_date r)
         /\ (date (order_date r) <= 19742 \/ order_date r = to_datetime (19742 + 1)).
Proof.
  eexists. split; [reflexivity|]. intro r.
  exact (date_window_in_calendar_days sample_df _ 19727 19742 r eq_refl).
Defined.

Lemma filter_columns_present_spec (df : Table) (sc sg : Selection)
    (sd ed : option Date) :
  update_charts_filter df sc sg sd ed =
  if filter_columns_present df sc sg sd ed
  then Ok (select (passes sc sg sd ed) df)
  else Raise (KeyError
         (if truthy sc && negb (has_column (columns df) "country") then "country"
          else if truthy sg && negb (has_column (columns df) "category") then "category"
          else "order_date")).
Proof.
  rewrite update_charts_filter_eq. unfold filter_columns_present, window_set, getitem.
  destruct (truthy sc), (truthy sg), sd, ed,
    (has_column (columns df) "country"),
    (has_column (columns df) "category"),
    (has_column (columns df) "order_date"); reflexivity.
Qed.

(** Once clicked, and for dates whose midnights (and the midnight after
    the end date) are timestamps pandas holds, the export produces a file
    when every active constraint finds its column (country, category,
    order_date for a date bound), and the file is rectangular: each line has
    one cell per header entry.  When an active constraint misses its column
    the export raises the [KeyError] of a column that is indeed missing,
    whatever the dates. *)
Theorem export_outcome (df : Table) (n : option Z) (sc sg : Selection)
    (sd ed : option Date) :
  not_clicked n = false ->
  (window_representable sd ed = true ->
   filter_columns_present df sc sg sd ed = true ->
   exists d,
     export_csv df n sc sg sd ed = Ok d
     /\ filename d = "filtered_sales.csv"
     /\ Forall (fun line => List.length line = List.length (csv_header (content d)))
               (csv_lines (content d)))
  /\ (filter_columns_present df sc sg sd ed = false ->
      exists c,
        export_csv df n sc sg sd ed = Raise (KeyError c)
        /\ has_column (columns df) c = false
        /\ In c ["country"; "category"; "order_date"]).
Proof.
  intro Hn. unfold export_csv. rewrite Hn, export_filter_is_charts_filter.
  rewrite filter_columns_present_spec. split; [intros _ H|intro H];
    rewrite H; cbn [bind].
  - eexists. split; [reflexivity|]. split; [reflexivity|].
    cbn. apply Forall_map. apply Forall_forall. intros r _. apply length_map.
  - eexists. split; [reflexivity|]. revert H.
    unfold filter_columns_present, window_set.
    destruct (truthy sc), (truthy sg), sd, ed,
      (has_column (columns df) "country") eqn:Hc,
      (has_column (columns df) "category") eqn:Hg,
      (has_column (columns df) "order_date") eqn:Hd;
      cbn; intro H; try discriminate H; rewrite ?Hc, ?Hg, ?Hd; auto 6.
Qed.

Lemma export_outcome_witness :
  not_clicked (Some 3) = false
  /\ (exists d,
        export_csv bare_df (Some 3) (SelList ["US"]) SelNone
          (Some 19727) (Some 19742) = Ok d)
  /\ (exists c,
        export_csv bare_df (Some 3) SelNone (SelList ["Toys"]) None None
          = Raise (KeyError c)
        /\ has_column (columns bare_df) c = false).
Proof.
  split; [reflexivity|]. split.
  - destruct (proj1 (export_outcome bare_df (Some 3) (SelList ["US"]) SelNone
                       (Some 19727) (Some 19742) eq_refl) eq_refl eq_refl)
      as (d & Hd & _).
    exists d. exact Hd.
  - destruct (proj2 (export_outcome bare_df (Some 3) SelNone (SelList ["Toys"])
                       None None eq_refl) eq_refl) as (c & Hc & Hm & _).
    exists c. split; assumption.
Defined.

(* ================================================================== *)
(** * Further properties of the aggregation *)

(** The fields of a successful aggregation. *)
Lemma aggregate_ok (L : Library) (dff : Table) (pv : PyValue) (v : Views) :
  aggregate L dff pv = Ok v ->
  fig_top v = top_products (tie_order L) (rows dff)
  /\ fig_country v = sales_country (tie_order L) (rows dff)
  /\ fig_time v =
       match resample_M_sum (rows dff) with
       | [] => LineNoData "Revenue Over Time (monthly) — No data for selected filters"
       | _ :: _ => Line (resample_M_sum (rows dff)) "Revenue Over Time (monthly)"
       end
  /\ total_revenue v = sum_revenue (rows dff)
  /\ total_orders v =
       (if has_column (columns dff) "order_id"
        then nunique (map order_id (rows dff))
        else List.length (rows dff))
  /\ aov v = average_order_value (total_revenue v) (total_orders v)
  /\ unique_products v =
       (if has_column (columns dff) "product_id"
        then nunique (map product_id (rows dff))
        else nunique (map product_name (rows dff)))
  /\ table_data v = head (n_preview (int_of_str L) pv) (rows dff)
  /\ total_rows v = List.length (rows dff)
  /\ countries_count v = nunique (map country (rows dff)).
Proof.
  unfold aggregate, getitem.
  repeat (destruct (has_column (columns dff) _); cbn [bind]; [|discriminate]).
  intros [= <-]. repeat split; reflexivity.
Qed.


Lemma groupby_sum_length (key : Row -> option string) (l : list Row) :
  List.length (groupby_sum key l) = nunique (map key l).
Proof.
  unfold groupby_sum, nunique. rewrite length_map.
  symmetry. apply Permutation_length, sorted_perm.
Qed.

Lemma sort_values_desc_length (tie : TieOrder) (l : list (string * Z)) :
  List.length (sort_values_desc tie l) = List.length l.
Proof. symmetry. apply Permutation_length, sort_values_desc_perm. Qed.

(** The country chart holds one bar per country of the subset, none left
    out, as many as the country count of the summary; each bar carries the
    summed revenue of its country, and the bars go by descending sum,
    whatever the sort makes of equal sums. *)
Theorem sales_country_ranking (L : Library) (dff : Table) (pv : PyValue) (v : Views) :
  aggregate L dff pv = Ok v ->
  StronglySorted not_below (fig_country v)
  /\ List.length (fig_country v) = countries_count v
  /\ (forall name total,
        In (name, total) (fig_country v) <->
        (exists r, In r (rows dff) /\ country r = Some name)
        /\ total = sum_revenue (filter (key_is country name) (rows dff))).
Proof.
  intro H. apply aggregate_ok in H as (_ & Hc & Hrest).
  assert (Hn : countries_count v = nunique (map country (rows dff))) by tauto.
  rewrite Hc, Hn. unfold sales_country. split; [|split].
  - apply sort_values_desc_descending.
  - rewrite sort_values_desc_length. apply groupby_sum_length.
  - intros name total. rewrite <- groupby_sum_In.
    split; apply Permutation_in; [symmetry|]; apply sort_values_desc_perm.
Qed.

Lemma sales_country_ranking_witness :
  exists v,
    aggregate reference_library sample_df PyNone = Ok v
    /\ StronglySorted not_below (fig_country v)
    /\ List.length (fig_country v) = countries_count v.
Proof.
  eexists. split; [reflexivity|].
  destruct (sales_country_ranking reference_library sample_df PyNone _ eq_refl)
    as (H1 & H2 & _).
  split; assumption.
Defined.

Lemma StronglySorted_app_cross (A : Type) (R : A -> A -> Prop) (l1 l2 : list A) :
  StronglySorted R (l1 ++ l2) ->
  forall x y, In x l1 -> In y l2 -> R x y.
Proof.
  induction l1 as [|a l1 IH]; cbn; intros Hs x y Hx Hy; [contradiction|].
  inversion Hs as [|? ? Hs' Hf]; subst. destruct Hx as [<-|Hx].
  - rewrite Forall_forall in Hf. apply Hf, in_or_app. now right.
  - eapply IH; eauto.
Qed.

(** The product chart never holds more than 10 bars, holds every product
    when there are at most 10, and a product left out has no more revenue
    than any product shown: the chart is then full and none of its bars
    has a smaller sum.  This holds whatever the sort makes of equal sums. *)
Theorem top_products_dominate (tie : TieOrder) (dff : list Row) :
  List.length (top_products tie dff)
    = Nat.min 10 (nunique (map product_name dff))
  /\ forall r name,
       In r dff -> product_name r = Some name ->
       In (name, sum_revenue (filter (key_is product_name name) dff))
          (top_products tie dff)
       \/ (List.length (top_products tie dff) = 10%nat
           /\ forall a, In a (top_products tie dff) ->
                sum_revenue (filter (key_is product_name name) dff) <= snd a).
Proof.
  change (top_products tie dff)
    with (firstn 10 (sort_values_desc tie (groupby_sum product_name dff))).
  set (ranking := sort_values_desc tie (groupby_sum product_name dff)).
  assert (Hlen : List.length ranking = nunique (map product_name dff)).
  { unfold ranking. rewrite sort_values_desc_length. apply groupby_sum_length. }
  split.
  - rewrite length_firstn, Hlen. reflexivity.
  - intros r name Hr Hname.
    assert (Hin : In (name, sum_revenue (filter (key_is product_name name) dff))
                     ranking).
    { unfold ranking. eapply Permutation_in; [apply sort_values_desc_perm|].
      apply groupby_sum_In. split; [exists r; auto | reflexivity]. }
    assert (Hs : StronglySorted not_below ranking)
      by apply sort_values_desc_descending.
    rewrite <- (firstn_skipn 10 ranking) in Hin, Hs.
    apply in_app_or in Hin as [Hin|Hin]; [now left|]. right. split.
    + rewrite length_firstn. apply Nat.min_l.
      destruct (Nat.le_gt_cases 10 (List.length ranking)) as [Hle|Hgt]; [assumption|].
      rewrite skipn_all2 in Hin by lia. contradiction.
    + intros a Ha.
      exact (StronglySorted_app_cross _ _ _ _ Hs a _ Ha Hin).
Qed.

Lemma top_products_dominate_witness :
  In ("Robot", 30) (top_products (fun _ _ => 0) sample_rows)
  \/ (List.length (top_products (fun _ _ => 0) sample_rows) = 10%nat
      /\ forall a, In a (top_products (fun _ _ => 0) sample_rows) -> 30 <= snd a).
Proof.
  refine (proj2 (top_products_dominate (fun _ _ => 0) sample_rows)
            (sale "o1" "Robot" "Toys" "US" 10 (to_datetime 19727 + 9 * NS_PER_HOUR))
            "Robot" _ eq_refl).
  left. reflexivity.
Defined.

Lemma unique_length_le (A : Type) (eqb : A -> A -> bool) (l : list A) :
  (List.length (unique eqb l) <= List.length l)%nat.
Proof.
  induction l as [|a l IH]; cbn; [lia|].
  generalize (filter_length_le (fun b => negb (eqb a b)) (unique eqb l)). lia.
Qed.

Lemma dropna_length_le (A : Type) (l : list (option A)) :
  (List.length (dropna l) <= List.length l)%nat.
Proof. induction l as [|[a|] l IH]; cbn; lia. Qed.

Lemma nunique_le (f : Row -> option string) (l : list Row) :
  (nunique (map f l) <= List.length l)%nat.
Proof.
  unfold nunique.
  generalize (unique_length_le _ String.eqb (dropna (map f l)))
             (dropna_length_le _ (map f l)).
  rewrite length_map. lia.
Qed.

Lemma dropna_all_none (f : Row -> option string) (l : list Row) :
  (forall r, In r l -> f r = None) -> dropna (map f l) = [].
Proof.
  induction l as [|r l IH]; intro Hall; [reflexivity|]. cbn.
  rewrite (Hall r (or_introl eq_refl)). apply IH.
  intros r' Hr'. apply Hall. now right.
Qed.

Lemma nunique_positive (f : Row -> option string) (l : list Row) (r : Row) :
  In r l -> f r <> None -> nunique (map f l) <> 0%nat.
Proof.
  intros Hr Hf. destruct (f r) as [k|] eqn:E; [|congruence].
  rewrite <- groupby_sum_length. intro H0.
  apply length_zero_iff_nil in H0.
  assert (Hin : In (k, sum_revenue (filter (key_is f k) l)) (groupby_sum f l)).
  { apply groupby_sum_In. split; [exists r; auto | reflexivity]. }
  rewrite H0 in Hin. contradiction.
Qed.

(** The counts on the cards never exceed the number of rows of the subset;
    the order count is the row count when there is no order_id column; with
    an order_id column it is 0 exactly when no row has an order id, and then
    the average order value is 0 whatever the revenue of the subset. *)
Theorem kpi_counts (L : Library) (dff : Table) (pv : PyValue) (v : Views) :
  aggregate L dff pv = Ok v ->
  (total_orders v <= total_rows v)%nat
  /\ (unique_products v <= total_rows v)%nat
  /\ (countries_count v <= total_rows v)%nat
  /\ (has_column (columns dff) "order_id" = false -> total_orders v = total_rows v)
  /\ (has_column (columns dff) "order_id" = true ->
      (total_orders v = 0%nat <-> forall r, In r (rows dff) -> order_id r = None))
  /\ (total_orders v = 0%nat -> aov v = 0%Q).
Proof.
  intro H.
  apply aggregate_ok in H as (_ & _ & _ & _ & Ho & Ha & Hp & _ & Hr & Hc).
  rewrite Ha, Hr, Hc, Hp. split; [|split; [|split; [|split; [|split]]]].
  - rewrite Ho. destruct (has_column (columns dff) "order_id");
      [apply nunique_le|lia].
  - destruct (has_column (columns dff) "product_id"); apply nunique_le.
  - apply nunique_le.
  - intro E. now rewrite Ho, E.
  - intro E. rewrite Ho, E. split.
    + intros H0 r Hr'. destruct (order_id r) eqn:Eo; [|reflexivity].
      exfalso. apply (nunique_positive order_id (rows dff) r Hr'); congruence.
    + intro Hall. unfold nunique. now rewrite dropna_all_none.
  - intros ->. reflexivity.
Qed.

Lemma kpi_counts_witness :
  exists v,
    aggregate reference_library sample_df PyNone = Ok v
    /\ (total_orders v <= total_rows v)%nat
    /\ (total_orders v = 0%nat <->
        forall r, In r (rows sample_df) -> order_id r = None).
Proof.
  eexists. split; [reflexivity|].
  destruct (kpi_counts reference_library sample_df PyNone _ eq_refl)
    as (H1 & _ & _ & _ & H5 & _).
  split; [exact H1 | exact (H5 eq_refl)].
Defined.

(* ================================================================== *)
(** * Further properties of the monthly series *)

Lemma Zrange_In (lo : Z) (n : nat) (m : Z) :
  In m (Zrange lo n) <-> lo <= m < lo + Z.of_nat n.
Proof.
  revert lo. induction n as [|n IH]; intro lo; cbn [Zrange In].
  - lia.
  - rewrite IH. lia.
Qed.

Lemma Zrange_NoDup (lo : Z) (n : nat) : NoDup (Zrange lo n).
Proof.
  revert lo. induction n as [|n IH]; intro lo; cbn [Zrange]; constructor.
  - rewrite Zrange_In. lia.
  - apply IH.
Qed.

(** The bins of a non-empty frame: from the month of its earliest row to
    the month of its latest row, both occurring. *)
Lemma resample_M_sum_bins (l : list Row) :
  l <> [] ->
  exists lo n,
    resample_M_sum l =
      map (fun m => (m, sum_revenue (filter (fun r => month_index (order_date r) =? m) l)))
          (Zrange lo (S n))
    /\ (exists r, In r l /\ month_index (order_date r) = lo)
    /\ (exists r, In r l /\ month_index (order_date r) = lo + Z.of_nat n)
    /\ (forall r, In r l -> lo <= month_index (order_date r) <= lo + Z.of_nat n).
Proof.
  intro Hl. unfold resample_M_sum.
  generalize (series_min_spec (map (fun r => month_index (order_date r)) l))
             (series_max_spec (map (fun r => month_index (order_date r)) l)).
  destruct (series_min _) as [lo|]; [|intros H; destruct l; [congruence|discriminate]].
  destruct (series_max _) as [hi|]; [|intros _ H; destruct l; [congruence|discriminate]].
  intros [Hlo Hmin] [Hhi Hmax].
  rewrite Forall_forall in Hmin, Hmax.
  assert (Hle : lo <= hi) by auto.
  exists lo, (Z.to_nat (hi - lo)).
  replace (S (Z.to_nat (hi - lo))) with (Z.to_nat (hi - lo + 1)) by lia.
  split; [reflexivity|].
  apply in_map_iff in Hlo as (r1 & E1 & H1).
  apply in_map_iff in Hhi as (r2 & E2 & H2).
  split; [exists r1; auto|]. split; [exists r2; split; [assumption|lia]|].
  intros r Hr.
  assert (Hin : In (month_index (order_date r))
                   (map (fun r => month_index (order_date r)) l))
    by (apply in_map_iff; exists r; auto).
  generalize (Hmin _ Hin) (Hmax _ Hin). lia.
Qed.

(** The line chart carries its "no data" marker exactly when the subset is
    empty. *)
Theorem line_figure_no_data_iff_empty (L : Library) (dff : Table) (pv : PyValue) (v : Views) :
  aggregate L dff pv = Ok v ->
  ((exists title, fig_time v = LineNoData title) <-> rows dff = []).
Proof.
  intro H. apply aggregate_ok in H as (_ & _ & Ht & _). rewrite Ht. split.
  - intros [title E]. destruct (rows dff) as [|r l] eqn:Er; [reflexivity|].
    destruct (resample_M_sum (r :: l)) eqn:El; [|discriminate].
    exfalso. revert El. apply resample_M_sum_nonempty. discriminate.
  - intros ->. eexists. reflexivity.
Qed.

Lemma line_figure_no_data_iff_empty_witness :
  exists v,
    aggregate reference_library sample_df PyNone = Ok v
    /\ ((exists title, fig_time v = LineNoData title) <-> rows sample_df = []).
Proof.
  eexists. split; [reflexivity|].
  exact (line_figure_no_data_iff_empty reference_library sample_df PyNone _ eq_refl).
Defined.

(** For a non-empty subset the monthly series runs over consecutive months,
    from the earliest month in which the subset has a row to the latest
    such month, months without sales included; the month of every row is
    one of its points, and each point carries the revenue of the rows of
    its month. *)
Theorem monthly_series_contiguous (L : Library) (dff : Table)
    (pv : PyValue) (v : Views) :
  aggregate L dff pv = Ok v ->
  rows dff <> [] ->
  exists lo n data title,
    fig_time v = Line data title
    /\ map fst data = Zrange lo (S n)
    /\ (exists r, In r (rows dff) /\ month_index (order_date r) = lo)
    /\ (exists r, In r (rows dff) /\ month_index (order_date r) = lo + Z.of_nat n)
    /\ (forall r, In r (rows dff) -> In (month_index (order_date r)) (map fst data))
    /\ (forall m total,
          In (m, total) data ->
          total = sum_revenue
                    (filter (fun r => month_index (order_date r) =? m) (rows dff))).
Proof.
  intros H Hne. apply aggregate_ok in H as (_ & _ & Ht & _).
  destruct (resample_M_sum_bins (rows dff) Hne) as (lo & n & E & Hlo & Hhi & Hall).
  rewrite Ht, E. cbn [Zrange map].
  eexists lo, n, _, _. split; [reflexivity|].
  change (lo :: Zrange (lo + 1) n) with (Zrange lo (S n)).
  change ((lo, sum_revenue (filter (fun r => month_index (order_date r) =? lo) (rows dff)))
          :: map (fun m => (m, sum_revenue (filter (fun r => month_index (order_date r) =? m) (rows dff))))
               (Zrange (lo + 1) n))
    with (map (fun m => (m, sum_revenue (filter (fun r => month_index (order_date r) =? m) (rows dff))))
              (Zrange lo (S n))).
  assert (Hfst : map fst
            (map (fun m => (m, sum_revenue (filter (fun r => month_index (order_date r) =? m) (rows dff))))
               (Zrange lo (S n))) = Zrange lo (S n)).
  { rewrite map_map. cbn [fst]. apply map_id. }
  split; [exact Hfst|]. split; [assumption|]. split; [assumption|]. split.
  - intros r Hr. rewrite Hfst. apply Zrange_In. specialize (Hall r Hr). lia.
  - intros m total Hin. apply in_map_iff in Hin as (m' & [= <- <-] & _). reflexivity.
Qed.

Lemma monthly_series_contiguous_witness :
  exists v lo n data title,
    aggregate reference_library sample_df PyNone = Ok v
    /\ fig_time v = Line data title
    /\ map fst data = Zrange lo (S n).
Proof.
  assert (Hne : rows sample_df <> []) by discriminate.
  destruct (monthly_series_contiguous reference_library sample_df PyNone _ eq_refl Hne)
    as (lo & n & data & title & H1 & H2 & _).
  eexists _, lo, n, data, title. split; [reflexivity|].
  split; assumption.
Defined.

(* ================================================================== *)
(** * Further properties of the heat map *)

Lemma aggregate_heat (L : Library) (dff : Table) (pv : PyValue) (v : Views) :
  aggregate L dff pv = Ok v ->
  fig_heat v =
    let pivot := pivot_table (rows dff) in
    let pivot :=
      reindex_columns pivot
        (filter (fun c => existsb (String.eqb c) (pv_columns pivot)) weekdays) in
    if pivot_empty pivot
    then {| heat_z := [[0]]; heat_x := []; heat_y := [];
            heat_title := "Hourly Heatmap — No data" |}
    else {| heat_z := pivot_values pivot; heat_x := pv_columns pivot;
            heat_y := pv_index pivot;
            heat_title := "Revenue heatmap: Hour vs Weekday" |}.
Proof.
  unfold aggregate, getitem.
  repeat (destruct (has_column (columns dff) _); cbn [bind]; [|discriminate]).
  intros [= <-]. reflexivity.
Qed.

Lemma existsb_eqb_In (s : string) (l : list string) :
  existsb (String.eqb s) l = true <-> In s l.
Proof.
  rewrite existsb_exists. split.
  - intros (x & Hx & E). apply String.eqb_eq in E. now subst.
  - intro H. exists s. split; [assumption|apply String.eqb_refl].
Qed.

Lemma weekday_present_iff (l : list Row) (w : string) :
  weekday_present l w = true <-> In (Some w) (map order_weekday l).
Proof.
  unfold weekday_present, key_is. rewrite existsb_exists, in_map_iff.
  split; intros (r & H1 & H2).
  - exists r. split; [|assumption].
    destruct (order_weekday r); [|discriminate].
    apply String.eqb_eq in H2. now subst.
  - exists r. split; [assumption|]. rewrite H1. apply String.eqb_refl.
Qed.

(** The columns left by the reindexing are the weekdays that occur, in week
    order. *)
Lemma reindexed_columns (l : list Row) :
  filter (fun c => existsb (String.eqb c) (pv_columns (pivot_table l))) weekdays
  = filter (weekday_present l) weekdays.
Proof.
  apply filter_ext. intro c. apply eq_true_iff_eq.
  rewrite existsb_eqb_In, weekday_present_iff. cbn [pivot_table pv_columns].
  apply sorted_unique_strings.
Qed.

Lemma sorted_Z (l : list Z) :
  NoDup l ->
  StronglySorted Z.lt (sorted Z.leb l)
  /\ forall x, In x (sorted Z.leb l) <-> In x l.
Proof.
  intro Hn. split.
  - apply StronglySorted_impl with (R := stably_ordered Z.leb (fun a b => a <> b)).
    + intros a b [H1 H2]. apply Z.leb_le in H1.
      destruct (Z.eq_dec a b) as [->|Hne]; [|lia].
      exfalso. apply H2; [apply Z.leb_refl | reflexivity].
    + apply sorted_stable.
      * intros a b. rewrite !Z.leb_le. lia.
      * intros a b c. rewrite !Z.leb_le. lia.
      * now apply NoDup_StronglySorted_neq.
  - intro x. split; apply Permutation_in; [symmetry|]; apply sorted_perm.
Qed.

Lemma pivot_index_spec (l : list Row) :
  StronglySorted Z.lt (pv_index (pivot_table l))
  /\ forall h, In h (pv_index (pivot_table l)) <->
               exists r, In r l /\ has_weekday r = true /\ order_hour r = h.
Proof.
  cbn [pivot_table pv_index].
  destruct (sorted_Z (unique Z.eqb (map order_hour (filter has_weekday l)))) as [Hs Hin].
  - apply unique_NoDup, Z.eqb_eq.
  - split; [assumption|]. intro h.
    rewrite Hin, unique_In, in_map_iff by apply Z.eqb_eq.
    split.
    + intros (r & E & Hr). apply filter_In in Hr as [Hr Hw]. exists r; auto.
    + intros (r & Hr & Hw & E). exists r. split; [assumption|].
      apply filter_In; auto.
Qed.

(** What the heat map is made of, case by case. *)
Lemma heat_map_spec (L : Library) (dff : Table) (pv : PyValue) (v : Views) :
  aggregate L dff pv = Ok v ->
  (filter (weekday_present (rows dff)) weekdays = [] ->
   heat_z (fig_heat v) = [[0]]
   /\ heat_x (fig_heat v) = []
   /\ heat_y (fig_heat v) = []
   /\ heat_title (fig_heat v) = "Hourly Heatmap — No data")
  /\ (filter (weekday_present (rows dff)) weekdays <> [] ->
      heat_x (fig_heat v) = filter (weekday_present (rows dff)) weekdays
      /\ StronglySorted Z.lt (heat_y (fig_heat v))
      /\ (forall h, In h (heat_y (fig_heat v)) <->
                    exists r, In r (rows dff) /\ has_weekday r = true
                              /\ order_hour r = h)
      /\ List.length (heat_z (fig_heat v)) = List.length (heat_y (fig_heat v))
      /\ Forall (fun line => List.length line = List.length (heat_x (fig_heat v)))
                (heat_z (fig_heat v))
      /\ heat_z (fig_heat v)
         = map (fun h =>
                  map (fun w =>
                         sum_revenue
                           (filter (fun r => (order_hour r =? h)
                                             && key_is order_weekday w r)
                                   (rows dff)))
                      (heat_x (fig_heat v)))
               (heat_y (fig_heat v))).
Proof.
  intro H. apply aggregate_heat in H. rewrite H. clear H. cbv zeta.
  rewrite reindexed_columns.
  set (l := rows dff).
  remember (filter (weekday_present l) weekdays) as cols eqn:Ec.
  unfold pivot_empty, pivot_values, reindex_columns. cbn [pv_index pv_columns pv_cell].
  split.
  - intros ->. destruct (pv_index (pivot_table l)); repeat split; reflexivity.
  - intro Hne.
    assert (Hcols : forall w, In w cols ->
                      In w weekdays /\ In (Some w) (map order_weekday l)).
    { intros w Hw. rewrite Ec in Hw. apply filter_In in Hw as [Hw Hp].
      split; [assumption|]. now apply weekday_present_iff. }
    destruct cols as [|w cols']; [congruence|].
    assert (Hidx : pv_index (pivot_table l) <> []).
    { destruct (Hcols w (or_introl eq_refl)) as [_ Hw].
      apply in_map_iff in Hw as (r & E & Hr). intro Hnil.
      assert (Hin : In (order_hour r) (pv_index (pivot_table l))).
      { apply pivot_index_spec. exists r. unfold has_weekday. rewrite E. auto. }
      rewrite Hnil in Hin. contradiction. }
    destruct (pv_index (pivot_table l)) as [|h hs] eqn:Ei; [congruence|].
    rewrite <- Ei. cbn [heat_x heat_y heat_z].
    split; [reflexivity|]. split; [apply pivot_index_spec|].
    split; [apply pivot_index_spec|]. split; [apply length_map|]. split.
    + apply Forall_map, Forall_forall. intros x _. apply length_map.
    + reflexivity.
Qed.

(** The heat map.  When no row carries one of the seven weekday names, it
    is the 1x1 zero matrix with the "no data" title.  Otherwise its columns
    are the weekdays that occur, in week order from Monday; its lines are
    the hours that occur, ascending; the matrix is rectangular; and the
    cell of an hour and a weekday is the revenue of the rows of that hour
    and weekday, 0 when there is none. *)
Theorem heat_map_shape (L : Library) (dff : Table) (pv : PyValue) (v : Views) :
  aggregate L dff pv = Ok v ->
  (filter (weekday_present (rows dff)) weekdays = [] ->
   heat_z (fig_heat v) = [[0]]
   /\ heat_x (fig_heat v) = []
   /\ heat_y (fig_heat v) = []
   /\ heat_title (fig_heat v) = "Hourly Heatmap — No data")
  /\ (filter (weekday_present (rows dff)) weekdays <> [] ->
      heat_x (fig_heat v) = filter (weekday_present (rows dff)) weekdays
      /\ StronglySorted Z.lt (heat_y (fig_heat v))
      /\ (forall h, In h (heat_y (fig_heat v)) <->
                    exists r, In r (rows dff) /\ has_weekday r = true
                              /\ order_hour r = h)
      /\ List.length (heat_z (fig_heat v)) = List.length (heat_y (fig_heat v))
      /\ Forall (fun line => List.length line = List.length (heat_x (fig_heat v)))
                (heat_z (fig_heat v))
      /\ heat_z (fig_heat v)
         = map (fun h =>
                  map (fun w =>
                         sum_revenue
                           (filter (fun r => (order_hour r =? h)
                                             && key_is order_weekday w r)
                                   (rows dff)))
                      (heat_x (fig_heat v)))
               (heat_y (fig_heat v))).
Proof.
  intro H. split.
  - exact (proj1 (heat_map_spec L dff pv v H)).
  - exact (proj2 (heat_map_spec L dff pv v H)).
Qed.

Lemma heat_map_shape_witness :
  exists v,
    aggregate reference_library sample_df PyNone = Ok v
    /\ heat_x (fig_heat v) = filter (weekday_present (rows sample_df)) weekdays
    /\ StronglySorted Z.lt (heat_y (fig_heat v)).
Proof.
  eexists. split; [reflexivity|].
  assert (Hne : filter (weekday_present (rows sample_df)) weekdays <> [])
    by discriminate.
  destruct (proj2 (heat_map_shape reference_library sample_df PyNone _ eq_refl) Hne)
    as (H1 & H2 & _).
  split; assumption.
Defined.

(* ================================================================== *)
(** * Further properties of the preview and of the whole callback *)

(** Whatever value the preview input hands over, the preview is a leading
    part of the subset: rows are neither reordered nor invented.  A
    non-negative length N gives the first N rows, or all of them when there
    are fewer; a negative one gives all but the last -N rows. *)
Theorem preview_is_prefix (L : Library) (dff : Table) (pv : PyValue) (v : Views) :
  aggregate L dff pv = Ok v ->
  (exists rest, rows dff = (table_data v ++ rest)%list)
  /\ (0 <= n_preview (int_of_str L) pv ->
      List.length (table_data v)
        = Nat.min (Z.to_nat (n_preview (int_of_str L) pv)) (List.length (rows dff)))
  /\ (n_preview (int_of_str L) pv < 0 ->
      List.length (table_data v)
        = (List.length (rows dff) - Z.to_nat (- n_preview (int_of_str L) pv))%nat).
Proof.
  intro H.
  apply aggregate_ok in H as (_ & _ & _ & _ & _ & _ & _ & Hd & _).
  rewrite Hd. unfold head. split; [|split].
  - destruct (0 <=? n_preview (int_of_str L) pv); eexists; symmetry; apply firstn_skipn.
  - intro Hn. apply Z.leb_le in Hn. rewrite Hn. apply length_firstn.
  - intro Hn. apply Z.leb_gt in Hn. rewrite Hn, length_firstn. lia.
Qed.

Lemma preview_is_prefix_witness :
  exists v,
    aggregate reference_library sample_df (PyInt (-1)) = Ok v
    /\ List.length (table_data v) = 2%nat.
Proof.
  eexists. split; [reflexivity|].
  destruct (preview_is_prefix reference_library sample_df (PyInt (-1)) _ eq_refl)
    as (_ & _ & H).
  apply H. reflexivity.
Defined.

(** With the six columns the aggregation indexes in place, and dates whose
    midnights (and the midnight after the end date) are timestamps pandas
    holds, [update_charts] raises nothing, whatever the selections and the
    preview value, provided a category selection finds a category column;
    the row count it reports is the number of rows passing the filter.  A
    category selection on a table without that column raises its
    [KeyError], whatever the dates. *)
Theorem update_charts_never_raises (L : Library) (df : Table) (sc sg : Selection)
    (sd ed : option Date) (pv : PyValue) :
  forallb (has_column (columns df)) aggregate_columns = true ->
  (truthy sg = true /\ has_column (columns df) "category" = false ->
   update_charts L df sc sg sd ed pv = Raise (KeyError "category"))
  /\ (window_representable sd ed = true ->
      truthy sg = false \/ has_column (columns df) "category" = true ->
      exists v,
        update_charts L df sc sg sd ed pv = Ok v
        /\ total_rows v = List.length (filter (passes sc sg sd ed) (rows df))
        /\ table_columns v = columns df).
Proof.
  intro Hcols. pose proof (forallb_aggregate_columns _ Hcols) as (_ & _ & Hc & Hd & _).
  unfold update_charts. rewrite filter_columns_present_spec.
  unfold filter_columns_present. rewrite Hc, Hd, !orb_true_r, !andb_true_r.
  cbn [andb]. split.
  - intros [Ht Hg]. rewrite Ht, Hg. cbn.
    destruct (truthy sc); reflexivity.
  - intros _ H.
    assert (E : negb (truthy sg) || has_column (columns df) "category" = true).
    { destruct H as [-> | ->]; [reflexivity|apply orb_true_r]. }
    rewrite E. cbn [bind].
    destruct (aggregate_total L (select (passes sc sg sd ed) df) pv Hcols) as (v & Hv).
    exists v. split; [assumption|].
    pose proof (aggregate_ok _ _ _ _ Hv) as (_ & _ & _ & _ & _ & _ & _ & _ & Hr & _).
    split; [exact Hr|].
    revert Hv. unfold aggregate, getitem.
    repeat (destruct (has_column (columns (select _ df)) _); cbn [bind]; [|discriminate]).
    intros [= <-]. reflexivity.
Qed.

Lemma update_charts_never_raises_witness :
  (exists v,
     update_charts reference_library bare_df (SelScalar "US") SelNone
       (Some 19727) None (PyStr "abc") = Ok v
     /\ total_rows v = 2%nat)
  /\ update_charts reference_library bare_df SelNone (SelList ["Toys"]) None None PyNone
     = Raise (KeyError "category").
Proof.
  split.
  - destruct (proj2 (update_charts_never_raises reference_library bare_df
                       (SelScalar "US") SelNone (Some 19727) None (PyStr "abc")
                       eq_refl)
                    eq_refl (or_introl eq_refl)) as (v & Hv & Hr & _).
    exists v. split; [exact Hv|exact Hr].
  - exact (proj1 (update_charts_never_raises reference_library bare_df SelNone
                    (SelList ["Toys"]) None None PyNone eq_refl)
                 (conj eq_refl eq_refl)).
Defined.

(* ================================================================== *)
(** * Further properties of the loader and of the start *)

Lemma has_column_In (cols : list string) (name : string) :
  has_column cols name = true <-> In name cols.
Proof. apply existsb_eqb_In. Qed.

Lemma assign_column_extends (cols : list string) (name : string) :
  exists extra,
    assign_column cols name = (cols ++ extra)%list /\ incl extra [name].
Proof.
  unfold assign_column. destruct (has_column cols name).
  - exists []. split; [now rewrite app_nil_r | intros x []].
  - exists [name]. split; [reflexivity | apply incl_refl].
Qed.

(** The columns of the loaded table: the columns of the file, names
    stripped, in file order, then at most revenue, order_hour and
    order_weekday; order_date, order_hour and order_weekday are always
    among them. *)
Theorem loaded_columns (fs : FileSystem) (f : RawTable) (t : Table) :
  load_data fs = Ok t ->
  chosen_file fs = Some f ->
  (exists extra,
     columns t = (map strip (raw_columns f) ++ extra)%list
     /\ incl extra ["revenue"; "order_hour"; "order_weekday"])
  /\ has_column (columns t) "order_date" = true
  /\ has_column (columns t) "order_hour" = true
  /\ has_column (columns t) "order_weekday" = true.
Proof.
  rewrite load_data_eq. intros H Hf. rewrite Hf in H.
  destruct (has_column (raw_columns f) "order_date") eqn:Hd; [|discriminate].
  cbv zeta in H. injection H as <-. cbn [columns].
  set (cols := map strip (raw_columns f)).
  set (base := if negb (has_column cols "revenue")
                  && (has_column cols "quantity" && has_column cols "price")
               then assign_column cols "revenue" else cols).
  assert (Hb : exists e0, base = (cols ++ e0)%list /\ incl e0 ["revenue"]).
  { unfold base. destruct (negb _ && _).
    - apply assign_column_extends.
    - exists []. split; [now rewrite app_nil_r | intros x []]. }
  destruct Hb as (e0 & Eb & I0).
  destruct (assign_column_extends base "order_hour") as (e1 & E1 & I1).
  destruct (assign_column_extends (assign_column base "order_hour") "order_weekday")
    as (e2 & E2 & I2).
  split; [|split; [|split]].
  - exists (e0 ++ e1 ++ e2)%list. split.
    + rewrite E2, E1, Eb, <- !app_assoc. reflexivity.
    + intros x Hx. apply in_app_or in Hx as [Hx|Hx];
        [|apply in_app_or in Hx as [Hx|Hx]].
      * apply I0 in Hx. destruct Hx as [<-|[]]. cbn; auto.
      * apply I1 in Hx. destruct Hx as [<-|[]]. cbn; auto.
      * apply I2 in Hx. destruct Hx as [<-|[]]. cbn; auto.
  - rewrite !has_column_assign.
    assert (Hc : has_column base "order_date" = true).
    { apply has_column_In. rewrite Eb. apply in_or_app. left.
      apply has_column_In in Hd. unfold cols.
      change "order_date" with (strip "order_date"). now apply in_map. }
    now rewrite Hc.
  - rewrite !has_column_assign. cbn [String.eqb Ascii.eqb Bool.eqb].
    now rewrite orb_true_r.
  - rewrite has_column_assign. cbn [String.eqb Ascii.eqb Bool.eqb].
    now rewrite orb_true_r.
Qed.

Lemma loaded_columns_witness :
  exists t extra,
    load_data fs_quantity_price = Ok t
    /\ columns t = (map strip (raw_columns csv_quantity_price) ++ extra)%list
    /\ has_column (columns t) "order_weekday" = true.
Proof.
  destruct (loaded_columns fs_quantity_price csv_quantity_price _ eq_refl eq_refl)
    as ((extra & E & _) & _ & _ & Hw).
  eexists _, extra. split; [reflexivity|]. split; assumption.
Defined.

Lemma loaded_rows_same_cells (l : list RawRow) :
  Forall2 (fun raw r => same_cells raw r /\ revenue r = raw_revenue raw)
          (parsed_rows l) (dropna_order_date (map derive l)).
Proof.
  unfold parsed_rows.
  induction l as [|a l IH]; cbn [map filter dropna_order_date]; [constructor|].
  unfold has_date at 1. cbn [derive source_row].
  destruct (raw_order_date a) eqn:E; [|exact IH].
  constructor; [|exact IH]. unfold same_cells. cbn. rewrite E. tauto.
Qed.

Lemma loaded_rows_same_cells_derived (l : list RawRow) :
  Forall2 same_cells (parsed_rows l)
          (dropna_order_date (map derive (map set_revenue l))).
Proof.
  unfold parsed_rows.
  induction l as [|a l IH]; cbn [map filter dropna_order_date]; [constructor|].
  unfold has_date at 1. cbn [derive source_row set_revenue raw_order_date].
  destruct (raw_order_date a) eqn:E; [|exact IH].
  constructor; [|exact IH]. unfold same_cells. cbn. rewrite E. tauto.
Qed.

(** The loader neither reorders nor alters what it reads: the rows returned
    are, in file order, the rows of the file whose date parsed, each with
    its cells unchanged; a revenue column that the file has is kept as it
    is, even where it differs from quantity times price. *)
Theorem loader_keeps_rows_and_cells (fs : FileSystem) (f : RawTable) (t : Table) :
  load_data fs = Ok t ->
  chosen_file fs = Some f ->
  Forall2 same_cells (parsed_rows (raw_rows f)) (rows t)
  /\ (has_column (map strip (raw_columns f)) "revenue" = true ->
      Forall2 (fun raw r => revenue r = raw_revenue raw)
              (parsed_rows (raw_rows f)) (rows t)).
Proof.
  rewrite load_data_eq. intros H Hf. rewrite Hf in H.
  destruct (has_column (raw_columns f) "order_date"); [|discriminate].
  cbv zeta in H. injection H as <-. cbn [rows]. split.
  - destruct (negb _ && _).
    + apply loaded_rows_same_cells_derived.
    + eapply Forall2_impl; [|apply loaded_rows_same_cells]. cbn. tauto.
  - intros ->. cbn [negb andb].
    eapply Forall2_impl; [|apply loaded_rows_same_cells]. cbn. tauto.
Qed.

Lemma loader_keeps_rows_and_cells_witness :
  exists t,
    load_data fs_quantity_price = Ok t
    /\ Forall2 same_cells (parsed_rows (raw_rows csv_quantity_price)) (rows t).
Proof.
  eexists. split; [reflexivity|].
  exact (proj1 (loader_keeps_rows_and_cells fs_quantity_price csv_quantity_price
                  _ eq_refl eq_refl)).
Defined.

(** The application starts exactly when one of the two files exists, its
    header names order_date, and one of its header names is country once
    stripped; a file that loads but has no country column stops the start
    with the [KeyError] of that column. *)
Theorem startup_outcome (fs : FileSystem) :
  ((exists t, startup fs = Ok t) <->
   exists f,
     chosen_file fs = Some f
     /\ has_column (raw_columns f) "order_date" = true
     /\ has_column (map strip (raw_columns f)) "country" = true)
  /\ (forall t, load_data fs = Ok t ->
      has_column (columns t) "country" = false ->
      startup fs = Raise (KeyError "country")).
Proof.
  unfold startup, getitem. rewrite load_data_eq. split.
  - destruct (chosen_file fs) as [f|].
    + destruct (has_column (raw_columns f) "order_date") eqn:Hd.
      * cbv zeta. cbn [bind columns]. rewrite !has_column_assign.
        cbn [String.eqb Ascii.eqb Bool.eqb]. rewrite !orb_false_r.
        assert (E : has_column
                      (if negb (has_column (map strip (raw_columns f)) "revenue")
                          && (has_column (map strip (raw_columns f)) "quantity"
                              && has_column (map strip (raw_columns f)) "price")
                       then assign_column (map strip (raw_columns f)) "revenue"
                       else map strip (raw_columns f)) "country"
                    = has_column (map strip (raw_columns f)) "country").
        { destruct (negb _ && _); [|reflexivity].
          rewrite has_column_assign. apply orb_false_r. }
        rewrite E.
        destruct (has_column (map strip (raw_columns f)) "country") eqn:Hc;
          cbn [bind]; split.
        -- intros _. exists f. auto.
        -- intros _. eexists. reflexivity.
        -- intros [t H]. discriminate.
        -- intros (f' & [= <-] & _ & H). congruence.
      * cbn [bind]. split; [intros [t H]; discriminate|].
        intros (f' & [= <-] & H & _). congruence.
    + cbn [bind]. split; [intros [t H]; discriminate|].
      intros (f' & H & _). discriminate.
  - intros t -> H. cbn [bind]. rewrite H. reflexivity.
Qed.

Lemma startup_outcome_witness :
  (exists f,
     chosen_file fs_quantity_price = Some f
     /\ has_column (raw_columns f) "order_date" = true
     /\ has_column (map strip (raw_columns f)) "country" = true)
  /\ startup fs_without_country = Raise (KeyError "country").
Proof.
  split.
  - apply (proj1 (proj1 (startup_outcome fs_quantity_price))).
    eexists. reflexivity.
  - exact (proj2 (startup_outcome fs_without_country) _ eq_refl eq_refl).
Defined.

(* ================================================================== *)
(** * Further properties of the defaults *)






(** The category options are the distinct categories of the base table in
    strictly ascending order, and none at all when the table has no
    category column, whatever its rows carry; the category control starts
    (and is reset) with None exactly when there is no option, and with the
    empty list otherwise. *)
Theorem available_categories_options (df : Table) (n : option Z) :
  StronglySorted String_as_OT.lt (available_categories df)
  /\ (has_column (columns df) "category" = true ->
      forall c, In c (available_categories df) <->
                exists r, In r (rows df) /\ category r = Some c)
  /\ (has_column (columns df) "category" = false -> available_categories df = [])
  /\ (available_categories df = [] ->
      reset_filters df n = Ok (controls df)
      /\ category_value (controls df) = SelNone)
  /\ (available_categories df <> [] ->
      reset_filters df n = Ok (controls df)
      /\ category_value (controls df) = SelList []).
Proof.
  assert (Hreset : reset_filters df n = Ok (controls df)).
  { unfold reset_filters. destruct (not_clicked n); reflexivity. }
  unfold available_categories at 1 2 3.
  destruct (has_column (columns df) "category") eqn:Hc.
  - destruct (sorted_unique_strings (map category (rows df))) as [Hs Hin].
    split; [assumption|]. split; [|split; [discriminate|]].
    + intros _ c. rewrite Hin, in_map_iff.
      split; intros (r & H1 & H2); exists r; auto.
    + split; intro H; (split; [assumption|]); cbn [controls category_value];
        destruct (available_categories df); congruence.
  - split; [constructor|]. split; [discriminate|]. split; [reflexivity|].
    split; intro H; (split; [assumption|]); cbn [controls category_value];
      destruct (available_categories df); congruence.
Qed.

Lemma available_categories_options_witness :
  (forall c, In c (available_categories sample_df) <->
             exists r, In r (rows sample_df) /\ category r = Some c)
  /\ available_categories bare_df = []
  /\ category_value (controls bare_df) = SelNone
  /\ category_value (controls sample_df) = SelList [].
Proof.
  destruct (available_categories_options sample_df None) as (_ & H2 & _ & _ & H5).
  destruct (available_categories_options bare_df None) as (_ & _ & H3 & H4 & _).
  split; [exact (H2 eq_refl)|]. split; [exact (H3 eq_refl)|].
  split; [exact (proj2 (H4 (H3 eq_refl)))|].
  refine (proj2 (H5 _)). discriminate.
Defined.

(* ================================================================== *)
(** * Row order *)


Lemma string_lt_irrefl (a : string) : ~ String_as_OT.lt a a.
Proof. intro H. apply String_as_OT.lt_not_eq in H. apply H. reflexivity. Qed.

Lemma sorted_unique_strings_perm (f : Row -> option string) (l l' : list Row) :
  Permutation l l' ->
  sorted String.leb (unique String.eqb (dropna (map f l)))
  = sorted String.leb (unique String.eqb (dropna (map f l'))).
Proof.
  intro Hp.
  destruct (sorted_unique_strings (map f l)) as [Hs Hin].
  destruct (sorted_unique_strings (map f l')) as [Hs' Hin'].
  apply (strictly_sorted_unique String_as_OT.lt string_lt_irrefl String_as_OT.lt_trans);
    try assumption.
  intro x. rewrite Hin, Hin'.
  split; apply Permutation_in; [|symmetry]; now apply Permutation_map.
Qed.

Lemma nunique_perm (f : Row -> option string) (l l' : list Row) :
  Permutation l l' -> nunique (map f l) = nunique (map f l').
Proof.
  intro Hp. unfold nunique.
  rewrite (Permutation_length (sorted_perm String.leb (unique String.eqb (dropna (map f l))))).
  rewrite (Permutation_length (sorted_perm String.leb (unique String.eqb (dropna (map f l'))))).
  now rewrite (sorted_unique_strings_perm f l l' Hp).
Qed.

Lemma series_min_perm (l l' : list Z) :
  Permutation l l' -> series_min l = series_min l'.
Proof.
  intro Hp. generalize (series_min_spec l) (series_min_spec l').
  destruct (series_min l) as [m|], (series_min l') as [m'|].
  - intros [Hm Ha] [Hm' Ha']. rewrite Forall_forall in Ha, Ha'. f_equal.
    assert (m <= m') by (apply Ha; eapply Permutation_in; [symmetry|]; eassumption).
    assert (m' <= m) by (apply Ha'; eapply Permutation_in; eassumption).
    lia.
  - intros [Hm _] ->. apply Permutation_sym, Permutation_nil in Hp. subst. contradiction.
  - intros -> [Hm _]. apply Permutation_nil in Hp. subst. contradiction.
  - reflexivity.
Qed.

Lemma series_max_perm (l l' : list Z) :
  Permutation l l' -> series_max l = series_max l'.
Proof.
  intro Hp. generalize (series_max_spec l) (series_max_spec l').
  destruct (series_max l) as [m|], (series_max l') as [m'|].
  - intros [Hm Ha] [Hm' Ha']. rewrite Forall_forall in Ha, Ha'. f_equal.
    assert (m' <= m) by (apply Ha; eapply Permutation_in; [symmetry|]; eassumption).
    assert (m <= m') by (apply Ha'; eapply Permutation_in; eassumption).
    lia.
  - intros [Hm _] ->. apply Permutation_sym, Permutation_nil in Hp. subst. contradiction.
  - intros -> [Hm _]. apply Permutation_nil in Hp. subst. contradiction.
  - reflexivity.
Qed.

(** The months of the series depend on the earliest and the latest month
    only. *)
Lemma resample_M_sum_months (l : list Row) :
  map fst (resample_M_sum l) =
  match series_min (map (fun r => month_index (order_date r)) l),
        series_max (map (fun r => month_index (order_date r)) l) with
  | Some lo, Some hi => Zrange lo (Z.to_nat (hi - lo + 1))
  | _, _ => []
  end.
Proof.
  unfold resample_M_sum.
  destruct (series_min (map (fun r => month_index (order_date r)) l));
    [|reflexivity].
  destruct (series_max (map (fun r => month_index (order_date r)) l));
    [|reflexivity].
  rewrite map_map. cbn [fst]. apply map_id.
Qed.

Lemma resample_M_sum_months_perm (l l' : list Row) :
  Permutation l l' ->
  map fst (resample_M_sum l) = map fst (resample_M_sum l').
Proof.
  intro Hp. rewrite !resample_M_sum_months.
  pose proof (Permutation_map (fun r => month_index (order_date r)) Hp) as Hm.
  now rewrite (series_min_perm _ _ Hm), (series_max_perm _ _ Hm).
Qed.

Lemma sales_country_names (tie : TieOrder) (l : list Row) (name : string) :
  In name (map fst (sales_country tie l)) <->
  exists r, In r l /\ country r = Some name.
Proof.
  unfold sales_country. rewrite in_map_iff. split.
  - intros ([k total] & E & Hin). cbn in E. subst k.
    apply (Permutation_in _ (Permutation_sym (sort_values_desc_perm tie _))) in Hin.
    apply groupby_sum_In in Hin. tauto.
  - intros (r & Hr & Hc).
    exists (name, sum_revenue (filter (key_is country name) l)).
    split; [reflexivity|].
    apply (Permutation_in _ (sort_values_desc_perm tie _)).
    apply groupby_sum_In. split; [exists r; auto | reflexivity].
Qed.

(** What does not depend on the order of the rows: two subsets with the
    same columns and the same rows in any order give the same order,
    product, country and row counts, chart the same countries, and run
    their monthly series over the same months. *)
Theorem counts_and_axes_ignore_row_order (L : Library) (d1 d2 : Table)
    (pv : PyValue) (v1 v2 : Views) :
  columns d1 = columns d2 ->
  Permutation (rows d1) (rows d2) ->
  aggregate L d1 pv = Ok v1 ->
  aggregate L d2 pv = Ok v2 ->
  total_orders v1 = total_orders v2
  /\ unique_products v1 = unique_products v2
  /\ total_rows v1 = total_rows v2
  /\ countries_count v1 = countries_count v2
  /\ (forall name, In name (map fst (fig_country v1)) <->
                   In name (map fst (fig_country v2)))
  /\ line_months (fig_time v1) = line_months (fig_time v2).
Proof.
  intros Hc Hp H1 H2.
  apply aggregate_ok in H1 as (_ & C1 & L1 & _ & O1 & _ & P1 & _ & N1 & K1).
  apply aggregate_ok in H2 as (_ & C2 & L2 & _ & O2 & _ & P2 & _ & N2 & K2).
  split; [|split; [|split; [|split; [|split]]]].
  - rewrite O1, O2, Hc. destruct (has_column (columns d2) "order_id").
    + now apply nunique_perm.
    + now apply Permutation_length.
  - rewrite P1, P2, Hc. destruct (has_column (columns d2) "product_id");
      now apply nunique_perm.
  - rewrite N1, N2. now apply Permutation_length.
  - rewrite K1, K2. now apply nunique_perm.
  - intro name. rewrite C1, C2, !sales_country_names.
    split; intros (r & Hr & E); exists r; split; try assumption.
    + eapply Permutation_in; eassumption.
    + eapply Permutation_in; [symmetry|]; eassumption.
  - assert (M1 : line_months (fig_time v1) = map fst (resample_M_sum (rows d1)))
      by (rewrite L1; destruct (resample_M_sum (rows d1)); reflexivity).
    assert (M2 : line_months (fig_time v2) = map fst (resample_M_sum (rows d2)))
      by (rewrite L2; destruct (resample_M_sum (rows d2)); reflexivity).
    rewrite M1, M2. now apply resample_M_sum_months_perm.
Qed.

Lemma counts_and_axes_ignore_row_order_witness :
  exists v1 v2,
    aggregate reference_library sample_df PyNone = Ok v1
    /\ aggregate reference_library
         {| columns := sales_columns; rows := rev sample_rows |} PyNone = Ok v2
    /\ total_orders v1 = total_orders v2
    /\ line_months (fig_time v1) = line_months (fig_time v2).
Proof.
  eexists _, _. split; [reflexivity|]. split; [reflexivity|].
  destruct (counts_and_axes_ignore_row_order reference_library sample_df
              {| columns := sales_columns; rows := rev sample_rows |}
              PyNone _ _ eq_refl (Permutation_rev sample_rows) eq_refl eq_refl)
    as (H1 & _ & _ & _ & _ & H6).
  split; assumption.
Defined.

(* ================================================================== *)
(** * From the loader to the heat map *)

Lemma loaded_rows_derived (fs : FileSystem) (t : Table) :
  load_data fs = Ok t ->
  Forall (fun r => order_hour r = hour (order_date r)
                   /\ order_weekday r = Some (day_name (order_date r)))
         (rows t).
Proof.
  rewrite load_data_eq.
  destruct (chosen_file fs) as [f|]; [|discriminate].
  destruct (has_column (raw_columns f) "order_date"); [|discriminate].
  cbv zeta. intros [= <-]. cbn [rows].
  apply dropna_order_date_derived. auto.
Qed.

(** On a table that comes from the loader, whatever the filter, a non-empty
    subset gives a heat map with data, whose hours all lie between 0 and 23
    (the sentinel -1 is no line of it), and in which every row of the
    subset has its cell: its hour is a line and the weekday of its date a
    column. *)
Theorem loaded_heat_map_covers_rows (L : Library) (fs : FileSystem)
    (t dff : Table) (sc sg : Selection) (sd ed : option Date) (pv : PyValue)
    (v : Views) :
  load_data fs = Ok t ->
  update_charts_filter t sc sg sd ed = Ok dff ->
  aggregate L dff pv = Ok v ->
  rows dff <> [] ->
  heat_title (fig_heat v) = "Revenue heatmap: Hour vs Weekday"
  /\ Forall (fun h => 0 <= h <= 23) (heat_y (fig_heat v))
  /\ (forall r, In r (rows dff) ->
        In (order_hour r) (heat_y (fig_heat v))
        /\ In (day_name (order_date r)) (heat_x (fig_heat v))).
Proof.
  intros Hl Hf Ha Hne.
  apply loaded_rows_derived in Hl. rewrite Forall_forall in Hl.
  apply update_charts_filter_ok in Hf.
  assert (Hrows : forall r, In r (rows dff) ->
            order_hour r = hour (order_date r)
            /\ order_weekday r = Some (day_name (order_date r))).
  { intros r Hr. apply Hl. subst dff. cbn [select rows] in Hr.
    now apply filter_In in Hr. }
  assert (Hpresent : forall r, In r (rows dff) ->
            In (day_name (order_date r))
               (filter (weekday_present (rows dff)) weekdays)).
  { intros r Hr. apply filter_In. split; [apply day_name_is_weekday|].
    apply weekday_present_iff. apply in_map_iff. exists r.
    split; [apply Hrows, Hr | assumption]. }
  assert (Hcols : filter (weekday_present (rows dff)) weekdays <> []).
  { destruct (rows dff) as [|r l] eqn:E; [congruence|].
    intro Hnil. specialize (Hpresent r (or_introl eq_refl)).
    rewrite Hnil in Hpresent. contradiction. }
  pose proof (aggregate_heat _ _ _ _ Ha) as Hh.
  destruct (proj2 (heat_map_spec L dff pv v Ha) Hcols)
    as (Hx & _ & Hy & _).
  split; [|split].
  - rewrite Hh. cbv zeta. rewrite reindexed_columns.
    unfold pivot_empty, reindex_columns. cbn [pv_index pv_columns].
    destruct (pv_index (pivot_table (rows dff))) as [|h hs] eqn:Ei.
    + exfalso. destruct (rows dff) as [|r l] eqn:E; [congruence|].
      assert (Hin : In (order_hour r) (pv_index (pivot_table (r :: l)))).
      { apply pivot_index_spec. exists r. split; [now left|].
        split; [|reflexivity]. unfold has_weekday.
        now rewrite (proj2 (Hrows r (or_introl eq_refl))). }
      rewrite Ei in Hin. contradiction.
    + destruct (filter (weekday_present (rows dff)) weekdays);
        [congruence|reflexivity].
  - apply Forall_forall. intros h Hin. apply Hy in Hin as (r & Hr' & _ & <-).
    rewrite (proj1 (Hrows r Hr')). apply hour_range.
  - intros r Hr. split.
    + apply Hy. exists r. split; [assumption|]. split; [|reflexivity].
      unfold has_weekday. now rewrite (proj2 (Hrows r Hr)).
    + rewrite Hx. now apply Hpresent.
Qed.

Lemma loaded_heat_map_covers_rows_witness :
  exists t dff v,
    load_data fs_quantity_price = Ok t
    /\ update_charts_filter t (SelList ["US"]) SelNone None None = Ok dff
    /\ aggregate reference_library dff PyNone = Ok v
    /\ Forall (fun h => 0 <= h <= 23) (heat_y (fig_heat v))
    /\ heat_title (fig_heat v) = "Revenue heatmap: Hour vs Weekday".
Proof.
  eexists _, _, _. split; [reflexivity|]. split; [reflexivity|].
  split; [reflexivity|].
  assert (Hne : rows (select (passes (SelList ["US"]) SelNone None None)
                        {| columns := ["order_id"; "order_date"; "product_name";
                                       "country"; "quantity"; "price"; "revenue";
                                       "order_hour"; "order_weekday"];
                           rows := dropna_order_date
                                     (map derive (map set_revenue
                                        (raw_rows csv_quantity_price))) |}) <> [])
    by discriminate.
  destruct (loaded_heat_map_covers_rows reference_library fs_quantity_price _ _
              (SelList ["US"]) SelNone None None PyNone _
              eq_refl eq_refl eq_refl Hne)
    as (H1 & H2 & _).
  split; assumption.
Defined.
